(** * PulseAudio support library of LibVLC: the shared threaded main loop
      and the server connection (src/pulse/mainloop.c).

    The C file keeps three file-scope objects: the pointer [vlc_pa_mainloop],
    the unsigned counter [refs] and the static mutex [lock].  The functions
    are embedded as computations over these globals.  Every call into
    libpulse, libvlc or libc, every operation on the static mutex and every
    store to [refs] is recorded, in program order, in the list of events the
    computation emits.  What the libraries answer is given by a record of
    answers, one per call of an entry point. *)

From Stdlib Require Import ZArith List String Bool Lia.
Import ListNotations.
Open Scope Z_scope.

(** ** Data *)

(** A C pointer: [None] is the null pointer. *)
Definition ptr (A : Type) : Type := option A.
Definition NULL {A : Type} : ptr A := None.

Definition is_NULL {A : Type} (p : ptr A) : bool :=
  match p with None => true | Some _ => false end.

(** Identities of the opaque libpulse objects. *)
Definition pa_threaded_mainloop : Type := nat.
Definition pa_context : Type := nat.

Definition ptr_eqb (p q : ptr nat) : bool :=
  match p, q with
  | None, None => true
  | Some a, Some b => Nat.eqb a b
  | _, _ => false
  end.

(** [pa_context_state_t] of <pulse/def.h>. *)
Inductive pa_context_state_t : Type :=
| PA_CONTEXT_UNCONNECTED
| PA_CONTEXT_CONNECTING
| PA_CONTEXT_AUTHORIZING
| PA_CONTEXT_SETTING_NAME
| PA_CONTEXT_READY
| PA_CONTEXT_FAILED
| PA_CONTEXT_TERMINATED.

Definition state_eqb (a b : pa_context_state_t) : bool :=
  match a, b with
  | PA_CONTEXT_UNCONNECTED, PA_CONTEXT_UNCONNECTED
  | PA_CONTEXT_CONNECTING, PA_CONTEXT_CONNECTING
  | PA_CONTEXT_AUTHORIZING, PA_CONTEXT_AUTHORIZING
  | PA_CONTEXT_SETTING_NAME, PA_CONTEXT_SETTING_NAME
  | PA_CONTEXT_READY, PA_CONTEXT_READY
  | PA_CONTEXT_FAILED, PA_CONTEXT_FAILED
  | PA_CONTEXT_TERMINATED, PA_CONTEXT_TERMINATED => true
  | _, _ => false
  end.

(** [unsigned] is 32 bits wide; [UINT_MAX] of <limits.h>. *)
Definition UINT_WIDTH : Z := 32.
Definition UINT_MAX : Z := 2 ^ UINT_WIDTH - 1.
Definition to_unsigned (z : Z) : Z := z mod 2 ^ UINT_WIDTH.

(** [unlikely] of <vlc_common.h> is a branch-prediction hint: it yields the
    truth value of its argument. *)
Definition unlikely (b : bool) : bool := b.

(** Conversion of an [int] to [bool] (C99 6.3.1.2): zero gives [false],
    anything else gives [true]. *)
Definition bool_of_int (z : Z) : bool := negb (z =? 0).

(** The file-scope variables. The mutex itself carries no data here; its
    operations appear among the events. *)
Record globals : Type := mkGlobals {
  vlc_pa_mainloop : ptr pa_threaded_mainloop;
  refs : Z
}.

(** Static initialisation: a null pointer and [refs = 0]. *)
Definition initial : globals := mkGlobals NULL 0.

Inductive event : Type :=
| Ev_vlc_mutex_lock
| Ev_vlc_mutex_unlock
| Ev_refs_incr (v : Z)   (* [refs++]; [v] is the value stored *)
| Ev_refs_decr (v : Z)   (* [--refs]; [v] is the value stored *)
| Ev_mainloop_new (r : ptr pa_threaded_mainloop)
| Ev_mainloop_start (m : ptr pa_threaded_mainloop) (r : Z)
| Ev_mainloop_stop (m : ptr pa_threaded_mainloop)
| Ev_mainloop_free (m : ptr pa_threaded_mainloop)
| Ev_mainloop_lock (m : ptr pa_threaded_mainloop)
| Ev_mainloop_unlock (m : ptr pa_threaded_mainloop)
| Ev_mainloop_signal (m : ptr pa_threaded_mainloop) (wait_for_accept : Z)
| Ev_mainloop_wait (m : ptr pa_threaded_mainloop)
| Ev_mainloop_get_api (m : ptr pa_threaded_mainloop)
| Ev_var_InheritString (name : string) (r : ptr string)
| Ev_free (p : ptr string)
| Ev_context_new (api : ptr pa_threaded_mainloop) (name : ptr string)
                 (r : ptr pa_context)
| Ev_context_set_state_callback (c : ptr pa_context)
                                (userdata : ptr pa_threaded_mainloop)
| Ev_context_connect (c : ptr pa_context) (r : Z)
| Ev_context_get_state (c : ptr pa_context) (s : pa_context_state_t)
| Ev_context_unref (c : ptr pa_context)
| Ev_msg_Err (text : string).

(** What the outside world answers during one call of an entry point. *)
Record libpulse : Type := mkLibpulse {
  pa_threaded_mainloop_new : ptr pa_threaded_mainloop;
  pa_threaded_mainloop_start : Z;
  var_InheritString : ptr string;
  pa_context_new : ptr pa_context;
  pa_context_connect : Z;
  (** the state read by the first [pa_context_get_state] *)
  pa_context_get_state : pa_context_state_t;
  (** the state read after each return of [pa_threaded_mainloop_wait];
      when the list is used up, the next wait is never signalled *)
  states_after_wait : list pa_context_state_t;
  pa_context_errno : Z;
  pa_strerror : Z -> string
}.

(** ** Computations *)

Inductive outcome (A : Type) : Type :=
| Ret (a : A)      (* the function returns *)
| Abort            (* an [assert] fails *)
| Block.           (* the thread waits and is never woken *)
Arguments Ret {A} a.
Arguments Abort {A}.
Arguments Block {A}.

Definition M (A : Type) : Type := globals -> outcome A * globals * list event.

Definition ret {A : Type} (a : A) : M A := fun g => (Ret a, g, []).

Definition bind {A B : Type} (m : M A) (k : A -> M B) : M B :=
  fun g =>
    match m g with
    | (Ret a, g1, t1) =>
        match k a g1 with (o, g2, t2) => (o, g2, t1 ++ t2) end
    | (Abort, g1, t1) => (Abort, g1, t1)
    | (Block, g1, t1) => (Block, g1, t1)
    end.

Notation "x <- c1 ;; c2" := (bind c1 (fun x => c2))
  (at level 61, c1 at next level, right associativity).
Notation "c1 ;; c2" := (bind c1 (fun _ => c2))
  (at level 61, right associativity).

Definition emit (e : event) : M unit := fun g => (Ret tt, g, [e]).
Definition block {A : Type} : M A := fun g => (Block, g, []).
Definition c_assert (b : bool) : M unit :=
  fun g => if b then (Ret tt, g, []) else (Abort, g, []).

Definition outcome_of {A : Type} (r : outcome A * globals * list event) :=
  fst (fst r).
Definition globals_of {A : Type} (r : outcome A * globals * list event) :=
  snd (fst r).
Definition events_of {A : Type} (r : outcome A * globals * list event) :=
  snd r.

Definition load_refs : M Z := fun g => (Ret (refs g), g, []).
Definition load_vlc_pa_mainloop : M (ptr pa_threaded_mainloop) :=
  fun g => (Ret (vlc_pa_mainloop g), g, []).
Definition store_vlc_pa_mainloop (m : ptr pa_threaded_mainloop) : M unit :=
  fun g => (Ret tt, mkGlobals m (refs g), []).
Definition store_refs (v : Z) : M unit :=
  fun g => (Ret tt, mkGlobals (vlc_pa_mainloop g) v, []).

(** [refs++] as a statement, and [--refs] as an expression (its value is
    the decremented counter), both in unsigned arithmetic. *)
Definition refs_postincr : M unit :=
  r <- load_refs ;;
  store_refs (to_unsigned (r + 1)) ;;
  emit (Ev_refs_incr (to_unsigned (r + 1))).
Definition refs_predecr : M Z :=
  r <- load_refs ;;
  store_refs (to_unsigned (r - 1)) ;;
  emit (Ev_refs_decr (to_unsigned (r - 1))) ;;
  ret (to_unsigned (r - 1)).

(** Where the block of [vlc_pa_mainloop_init] that ends in [goto out] or
    falls through leaves the local [mainloop]. *)
Inductive flow : Type :=
| Goto_out (mainloop : ptr pa_threaded_mainloop)
| Fallthrough (mainloop : ptr pa_threaded_mainloop).

(** ** The functions of mainloop.c *)

Definition vlc_pa_error (msg : string) (pa : libpulse) : M unit :=
  emit (Ev_msg_Err (msg ++ ": " ++ pa_strerror pa (pa_context_errno pa))).

Definition vlc_pa_mainloop_init (pa : libpulse)
  : M (ptr pa_threaded_mainloop) :=
  emit Ev_vlc_mutex_lock ;;
  r <- load_refs ;;
  f <- (if r =? 0 then
          let mainloop := pa_threaded_mainloop_new pa in
          emit (Ev_mainloop_new mainloop) ;;
          if unlikely (is_NULL mainloop) then ret (Goto_out mainloop)
          else
            let rc := pa_threaded_mainloop_start pa in
            emit (Ev_mainloop_start mainloop rc) ;;
            if rc <? 0 then
              emit (Ev_mainloop_free mainloop) ;;
              ret (Goto_out mainloop)
            else
              store_vlc_pa_mainloop mainloop ;;
              ret (Fallthrough mainloop)
        else
          if unlikely (r <? UINT_MAX) then ret (Goto_out NULL)
          else
            mainloop <- load_vlc_pa_mainloop ;;
            ret (Fallthrough mainloop)) ;;
  mainloop <- match f with
              | Fallthrough mainloop =>
                  c_assert (negb (is_NULL mainloop)) ;;
                  refs_postincr ;;
                  ret mainloop
              | Goto_out mainloop => ret mainloop
              end ;;
  emit Ev_vlc_mutex_unlock ;;
  ret mainloop.

Definition vlc_pa_mainloop_deinit (mainloop : ptr pa_threaded_mainloop)
  : M unit :=
  emit Ev_vlc_mutex_lock ;;
  r <- load_refs ;;
  c_assert (0 <? r) ;;
  g <- load_vlc_pa_mainloop ;;
  c_assert (ptr_eqb mainloop g) ;;
  r' <- refs_predecr ;;
  let mainloop := if 0 <? r' then NULL else mainloop in
  emit Ev_vlc_mutex_unlock ;;
  if negb (is_NULL mainloop) then
    emit (Ev_mainloop_stop mainloop) ;;
    emit (Ev_mainloop_free mainloop)
  else ret tt.

Definition vlc_pa_lock : M unit :=
  m <- load_vlc_pa_mainloop ;; emit (Ev_mainloop_lock m).

Definition vlc_pa_unlock : M unit :=
  m <- load_vlc_pa_mainloop ;; emit (Ev_mainloop_unlock m).

Definition vlc_pa_signal (do_wait : Z) : M unit :=
  m <- load_vlc_pa_mainloop ;; emit (Ev_mainloop_signal m do_wait).

Definition vlc_pa_wait : M unit :=
  m <- load_vlc_pa_mainloop ;; emit (Ev_mainloop_wait m).

(** [state] is what [pa_context_get_state (ctx)] answers in the callback. *)
Definition context_state_cb (ctx : ptr pa_context)
    (state : pa_context_state_t) (userdata : ptr pa_threaded_mainloop)
  : M unit :=
  let mainloop := userdata in
  emit (Ev_context_get_state ctx state) ;;
  match state with
  | PA_CONTEXT_READY | PA_CONTEXT_FAILED | PA_CONTEXT_TERMINATED =>
      emit (Ev_mainloop_signal mainloop 0)
  | _ => ret tt
  end.

(** The value of the [return] expression of [context_wait], before its
    conversion to the declared return type.  [state] is the answer of the
    next [pa_context_get_state]; [later] are the answers after each wait. *)
Fixpoint context_wait_value (mainloop : ptr pa_threaded_mainloop)
    (ctx : ptr pa_context) (state : pa_context_state_t)
    (later : list pa_context_state_t) : M Z :=
  emit (Ev_context_get_state ctx state) ;;
  if negb (state_eqb state PA_CONTEXT_READY) then
    if state_eqb state PA_CONTEXT_FAILED
       || state_eqb state PA_CONTEXT_TERMINATED
    then ret (-1)
    else
      emit (Ev_mainloop_wait mainloop) ;;
      match later with
      | [] => block
      | state' :: later' => context_wait_value mainloop ctx state' later'
      end
  else ret 0.

Definition context_wait (mainloop : ptr pa_threaded_mainloop)
    (ctx : ptr pa_context) (pa : libpulse) : M bool :=
  v <- context_wait_value mainloop ctx
         (pa_context_get_state pa) (states_after_wait pa) ;;
  ret (bool_of_int v).

(** The tail of [vlc_pa_connect] from the label [fail]. *)
Definition vlc_pa_connect_fail (mainloop : ptr pa_threaded_mainloop)
  : M (ptr pa_context) :=
  emit (Ev_mainloop_unlock mainloop) ;;
  vlc_pa_mainloop_deinit mainloop ;;
  ret NULL.

Definition vlc_pa_connect (pa : libpulse) : M (ptr pa_context) :=
  mainloop <- vlc_pa_mainloop_init pa ;;
  if unlikely (is_NULL mainloop) then ret NULL
  else
    let ua := var_InheritString pa in
    emit (Ev_var_InheritString "user-agent" ua) ;;
    emit (Ev_mainloop_lock mainloop) ;;
    emit (Ev_mainloop_get_api mainloop) ;;
    let ctx := pa_context_new pa in
    emit (Ev_context_new mainloop ua ctx) ;;
    emit (Ev_free ua) ;;
    if unlikely (is_NULL ctx) then vlc_pa_connect_fail mainloop
    else
      emit (Ev_context_set_state_callback ctx mainloop) ;;
      let rc := pa_context_connect pa in
      emit (Ev_context_connect ctx rc) ;;
      failed <- (if rc <? 0 then ret true
                 else context_wait mainloop ctx pa) ;;
      if failed then
        vlc_pa_error "PulseAudio server connection failure" pa ;;
        emit (Ev_context_unref ctx) ;;
        vlc_pa_connect_fail mainloop
      else
        emit (Ev_mainloop_unlock mainloop) ;;
        ret ctx.

Definition vlc_pa_disconnect (ctx : ptr pa_context) : M unit :=
  mainloop <- load_vlc_pa_mainloop ;;
  emit (Ev_mainloop_lock mainloop) ;;
  emit (Ev_context_unref ctx) ;;
  emit (Ev_mainloop_unlock mainloop) ;;
  vlc_pa_mainloop_deinit mainloop.

(** ** Reading a list of events *)

Definition mutex_step (held : bool) (e : event) : bool :=
  match e with
  | Ev_vlc_mutex_lock => true
  | Ev_vlc_mutex_unlock => false
  | _ => held
  end.

(** Whether the static mutex [lock] is held after the events [t] of a
    thread that did not hold it before. *)
Definition mutex_held (t : list event) : bool := fold_left mutex_step t false.

(** The lock of a threaded main loop is recursive: the depth counts how
    many times the calling thread holds it. *)
Definition loop_lock_step (depth : nat) (e : event) : nat :=
  match e with
  | Ev_mainloop_lock _ => S depth
  | Ev_mainloop_unlock _ => Nat.pred depth
  | _ => depth
  end.

Definition loop_lock_depth (t : list event) : nat :=
  fold_left loop_lock_step t 0%nat.

Definition is_start (e : event) : bool :=
  match e with Ev_mainloop_start _ _ => true | _ => false end.
Definition is_stop_or_free (e : event) : bool :=
  match e with
  | Ev_mainloop_stop _ | Ev_mainloop_free _ => true
  | _ => false
  end.
Definition is_refs_incr (e : event) : bool :=
  match e with Ev_refs_incr _ => true | _ => false end.
Definition is_refs_decr (e : event) : bool :=
  match e with Ev_refs_decr _ => true | _ => false end.
Definition is_mutex_op (e : event) : bool :=
  match e with Ev_vlc_mutex_lock | Ev_vlc_mutex_unlock => true | _ => false end.
Definition is_context_unref (e : event) : bool :=
  match e with Ev_context_unref _ => true | _ => false end.
Definition is_msg_Err (e : event) : bool :=
  match e with Ev_msg_Err _ => true | _ => false end.

(** The calls that create a connection, watch it and ask for the
    connection. *)
Definition is_context_setup (e : event) : bool :=
  match e with
  | Ev_context_new _ _ _
  | Ev_context_set_state_callback _ _
  | Ev_context_connect _ _ => true
  | _ => false
  end.

(** What [vlc_pa_mainloop_deinit] does: everything it can emit. *)
Definition is_deinit_event (e : event) : bool :=
  is_mutex_op e || is_refs_decr e || is_stop_or_free e.

Definition count (p : event -> bool) (t : list event) : nat :=
  List.length (filter p t).

(** The state at which the polling of [context_wait] stops: the first of
    Ready, Failed and Terminated among the answers; [None] when the answers
    never get there, and the last wait is never signalled. *)
Fixpoint final_state (state : pa_context_state_t)
    (later : list pa_context_state_t) : option pa_context_state_t :=
  match state with
  | PA_CONTEXT_READY | PA_CONTEXT_FAILED | PA_CONTEXT_TERMINATED => Some state
  | _ => match later with
         | [] => None
         | state' :: later' => final_state state' later'
         end
  end.

(** ** Sequences of calls *)

(** The two static functions, as a caller in this file reaches them. *)
Inductive call : Type :=
| Call_init (pa : libpulse)
| Call_deinit (mainloop : ptr pa_threaded_mainloop).

Definition run_call (c : call) : M (ptr pa_threaded_mainloop) :=
  match c with
  | Call_init pa => vlc_pa_mainloop_init pa
  | Call_deinit m => vlc_pa_mainloop_deinit m ;; ret NULL
  end.

(** The outcome and the events of each call of a sequence, in order; a
    failed assertion ends the process, so nothing is run after it. *)
Fixpoint run_calls (cs : list call) (g : globals)
  : list (outcome (ptr pa_threaded_mainloop) * list event) :=
  match cs with
  | [] => []
  | c :: cs' =>
      match run_call c g with
      | (Ret a, g', t) => (Ret a, t) :: run_calls cs' g'
      | (o, _, t) => [(o, t)]
      end
  end.

(** A caller that follows the discipline of [vlc_pa_connect] and
    [vlc_pa_disconnect]: it keeps each non-null pointer it got from
    [vlc_pa_mainloop_init], and gives each one back once. *)
Inductive request : Type :=
| Req_acquire (pa : libpulse)
| Req_release.

Fixpoint client (held : list pa_threaded_mainloop) (reqs : list request)
  : M unit :=
  match reqs with
  | [] => ret tt
  | Req_acquire pa :: rest =>
      m <- vlc_pa_mainloop_init pa ;;
      match m with
      | Some h => client (h :: held) rest
      | None => client held rest
      end
  | Req_release :: rest =>
      match held with
      | h :: held' => vlc_pa_mainloop_deinit (Some h) ;; client held' rest
      | [] => client held rest
      end
  end.

(** ** Callers that follow the discipline *)

(** The loop is created and started, or not created at all. *)
Definition start_succeeds (pa : libpulse) : Prop :=
  pa_threaded_mainloop_new pa = NULL \/ 0 <= pa_threaded_mainloop_start pa.

Definition all_starts_succeed (reqs : list request) : Prop :=
  Forall (fun r => match r with
                   | Req_acquire pa => start_succeeds pa
                   | Req_release => True
                   end) reqs.

(** What the caller holds agrees with the globals. *)
Definition balanced (held : list pa_threaded_mainloop) (g : globals) : Prop :=
  (held = [] /\ refs g = 0)
  \/ (exists h, held = [h] /\ refs g = 1 /\ vlc_pa_mainloop g = Some h).

(** ** Properties of every event of a list, given the events before it *)

Fixpoint each_after (ok : list event -> event -> bool)
    (before t : list event) : bool :=
  match t with
  | [] => true
  | e :: t' => ok before e && each_after ok (before ++ [e]) t'
  end.

(** The counter is stored to only with the static mutex held, and the loop
    is stopped and freed only with the static mutex released. *)
Definition mutex_discipline (before : list event) (e : event) : bool :=
  implb (is_refs_incr e || is_refs_decr e) (mutex_held before)
  && implb (is_stop_or_free e) (negb (mutex_held before)).

(** The reference to the context is dropped with the loop's lock held, once;
    what [vlc_pa_mainloop_deinit] does comes after it, with the loop's lock
    released. *)
Definition disconnect_discipline (before : list event) (e : event) : bool :=
  implb (is_context_unref e)
        (Nat.eqb (loop_lock_depth before) 1
         && Nat.eqb (count is_context_unref before) 0)
  && implb (is_deinit_event e)
           (Nat.eqb (loop_lock_depth before) 0
            && Nat.eqb (count is_context_unref before) 1).

(** The context is created, observed and connected with the loop's lock
    held, and after the static mutex was unlocked by the acquisition. *)
Definition connect_discipline (before : list event) (e : event) : bool :=
  implb (is_context_setup e)
        (Nat.eqb (loop_lock_depth before) 1
         && negb (mutex_held before)
         && Nat.eqb (count is_mutex_op before) 2).

(** The events of the polling loop of [context_wait]. *)
Fixpoint polling (mainloop : ptr pa_threaded_mainloop) (ctx : ptr pa_context)
    (state : pa_context_state_t) (later : list pa_context_state_t)
  : list event :=
  Ev_context_get_state ctx state
  :: match state with
     | PA_CONTEXT_READY | PA_CONTEXT_FAILED | PA_CONTEXT_TERMINATED => []
     | _ => Ev_mainloop_wait mainloop
            :: match later with
               | [] => []
               | state' :: later' => polling mainloop ctx state' later'
               end
     end.

(** The events of [vlc_pa_connect] between the acquisition of the loop and
    the polling. *)
Definition connect_setup (pa : libpulse) (h : pa_threaded_mainloop)
    (c : pa_context) : list event :=
  [Ev_var_InheritString "user-agent" (var_InheritString pa);
   Ev_mainloop_lock (Some h);
   Ev_mainloop_get_api (Some h);
   Ev_context_new (Some h) (var_InheritString pa) (Some c);
   Ev_free (var_InheritString pa);
   Ev_context_set_state_callback (Some c) (Some h);
   Ev_context_connect (Some c) (pa_context_connect pa)].

(** The tail of [vlc_pa_connect] when the connection failed: the error is
    logged with the text of the server's error, the context is
    unreferenced, and the function goes to [fail]. *)
Definition connect_failure_events (pa : libpulse) (c : pa_context)
  : list event :=
  [Ev_msg_Err ("PulseAudio server connection failure: "
               ++ pa_strerror pa (pa_context_errno pa));
   Ev_context_unref (Some c)].

Definition is_init_event (e : event) : bool :=
  match e with
  | Ev_vlc_mutex_lock | Ev_vlc_mutex_unlock | Ev_refs_incr _
  | Ev_mainloop_new _ | Ev_mainloop_start _ _ | Ev_mainloop_free _ => true
  | _ => false
  end.

Definition is_polling_event (e : event) : bool :=
  match e with
  | Ev_context_get_state _ _ | Ev_mainloop_wait _ => true
  | _ => false
  end.

(** ** The data-ready callback of the capture stream *)

Module FrameDelivery.

(** Modelled from the spec: the Frame Delivery Pipeline (the data-ready
    callback of the capture stream), whose source file is not part of
    src/.  The steps follow section 4.4 of the specification: peek, capture
    the wall time and query the latency, publish the timestamp as the clock
    reference, build and send the block when there is a sink, and always
    drop the peeked region. *)

Inductive direction : Type :=
| Past      (* the latency is reported as in the past (negative) *)
| Future.   (* the latency is reported as yet to play *)

Record block : Type := mkBlock {
  payload : list Byte.byte;
  nb_samples : Z;
  pts : Z;
  dts : Z;
  discontinuity : bool
}.

Record stream : Type := mkStream {
  sink : bool;                  (* the output sink endpoint is registered *)
  pending_discontinuity : bool;
  frame_size : Z
}.

(** One data-ready notification, with what the stream, the clock and the
    allocator answer during it. *)
Record notification : Type := mkNotification {
  peek : option (list Byte.byte);         (* [None]: the peek fails *)
  capture_time : Z;                       (* wall time, microseconds *)
  latency : option (Z * direction);       (* [None]: the query fails *)
  alloc : bool                            (* the block can be allocated *)
}.

Inductive action : Type :=
| Log_error (what : string)
| Set_clock_reference (t : Z)
| Send (b : block)
| Drop_peeked.

Definition presentation_timestamp (capture : Z) (l : Z) (d : direction) : Z :=
  match d with
  | Past => capture - l
  | Future => capture + l
  end.

Definition data_ready (s : stream) (n : notification)
  : stream * list action :=
  match peek n with
  | None => (s, [Log_error "cannot peek stream"; Drop_peeked])
  | Some data =>
      match latency n with
      | None => (s, [Log_error "cannot determine latency"; Drop_peeked])
      | Some (l, d) =>
          let t := presentation_timestamp (capture_time n) l d in
          if sink s then
            if alloc n then
              let b := mkBlock data
                         (Z.of_nat (List.length data) / frame_size s)
                         t t (pending_discontinuity s) in
              (mkStream (sink s) false (frame_size s),
               [Set_clock_reference t; Send b; Drop_peeked])
            else
              (mkStream (sink s) true (frame_size s),
               [Set_clock_reference t; Drop_peeked])
          else (s, [Set_clock_reference t; Drop_peeked])
      end
  end.

Definition clock_references (l : list action) : list Z :=
  flat_map (fun a => match a with Set_clock_reference t => [t] | _ => [] end) l.

Definition blocks_sent (l : list action) : list block :=
  flat_map (fun a => match a with Send b => [b] | _ => [] end) l.

End FrameDelivery.

(** ** Sample answers of the libraries *)

Definition sample_strerror (e : Z) : string :=
  if e =? 0 then "OK"
  else if e =? 6 then "Connection refused"
  else "Unknown error code".

(** The loop starts and the server accepts the connection. *)
Definition pa_accepts : libpulse :=
  mkLibpulse (Some 1%nat) 0 (Some "VLC media player"%string) (Some 2%nat) 0
    PA_CONTEXT_CONNECTING
    [PA_CONTEXT_AUTHORIZING; PA_CONTEXT_SETTING_NAME; PA_CONTEXT_READY]
    0 sample_strerror.

(** The loop starts and the server refuses the connection. *)
Definition pa_refuses : libpulse :=
  mkLibpulse (Some 1%nat) 0 (Some "VLC media player"%string) (Some 2%nat) 0
    PA_CONTEXT_CONNECTING [PA_CONTEXT_FAILED] 6 sample_strerror.

(** The loop object is created, its thread cannot be started, and no
    context can be created. *)
Definition pa_start_fails : libpulse :=
  mkLibpulse (Some 1%nat) (-1) NULL NULL (-1) PA_CONTEXT_UNCONNECTED [] 0
    sample_strerror.

(** ** More readings of events, and whole sequences of calls *)

Definition is_signal (e : event) : bool :=
  match e with Ev_mainloop_signal _ _ => true | _ => false end.
Definition is_wait (e : event) : bool :=
  match e with Ev_mainloop_wait _ => true | _ => false end.
Definition is_get_state (e : event) : bool :=
  match e with Ev_context_get_state _ _ => true | _ => false end.
Definition is_stop_event (e : event) : bool :=
  match e with Ev_mainloop_stop _ => true | _ => false end.
Definition is_free_event (e : event) : bool :=
  match e with Ev_mainloop_free _ => true | _ => false end.
(** A call of [pa_context_new] that created a context. *)
Definition is_context_created (e : event) : bool :=
  match e with Ev_context_new _ _ (Some _) => true | _ => false end.

(** A call of [pa_threaded_mainloop_new] that created a loop object. *)
Definition is_created (e : event) : bool :=
  match e with Ev_mainloop_new (Some _) => true | _ => false end.

(** A call of [pa_threaded_mainloop_start] that succeeded. *)
Definition is_started (e : event) : bool :=
  match e with Ev_mainloop_start _ rc => 0 <=? rc | _ => false end.

(** The states at which neither [context_wait] stops nor
    [context_state_cb] signals. *)
Definition is_transient (s : pa_context_state_t) : bool :=
  match s with
  | PA_CONTEXT_READY | PA_CONTEXT_FAILED | PA_CONTEXT_TERMINATED => false
  | _ => true
  end.

(** A sequence of calls run as one computation: the events add up, and a
    failed assertion ends it. *)
Fixpoint run_all (cs : list call) : M unit :=
  match cs with
  | [] => ret tt
  | c :: cs' => run_call c ;; run_all cs'
  end.

(** The states a process can be in: no holder, or one holder and a loop. *)
Definition at_most_one_holder (g : globals) : Prop :=
  refs g = 0 \/ (refs g = 1 /\ vlc_pa_mainloop g <> NULL).

(** The loop starts; no context can be created. *)
Definition pa_no_context : libpulse :=
  mkLibpulse (Some 1%nat) 0 NULL NULL 0 PA_CONTEXT_UNCONNECTED [] 0
    (fun _ => EmptyString).

(** The loop starts; the connection request is rejected at once. *)
Definition pa_rejects : libpulse :=
  mkLibpulse (Some 1%nat) 0 NULL (Some 2%nat) (-1) PA_CONTEXT_UNCONNECTED []
    6 (fun e => if e =? 6 then "Connection refused"%string else EmptyString).

(** The loop starts; the server never gets past the authorization. *)
Definition pa_silent : libpulse :=
  mkLibpulse (Some 1%nat) 0 NULL (Some 2%nat) 0 PA_CONTEXT_CONNECTING
    [PA_CONTEXT_AUTHORIZING] 0 (fun _ => EmptyString).

(** No loop object can be created. *)
Definition pa_no_loop : libpulse :=
  mkLibpulse NULL 0 NULL NULL 0 PA_CONTEXT_UNCONNECTED [] 0
    (fun _ => EmptyString).

(** The loop object is created, its thread cannot be started; the context
    is created and becomes Ready all the same. *)
Definition pa_no_thread : libpulse :=
  mkLibpulse (Some 1%nat) (-1) NULL (Some 2%nat) 0 PA_CONTEXT_READY [] 0
    (fun _ => EmptyString).

(** Every way [vlc_pa_mainloop_init] ends. *)
Inductive init_branch (pa : libpulse) (g : globals)
  : outcome (ptr pa_threaded_mainloop) * globals * list event -> Prop :=
| Init_new_fails :
    refs g = 0 -> pa_threaded_mainloop_new pa = NULL ->
    init_branch pa g
      (Ret NULL, g,
       [Ev_vlc_mutex_lock; Ev_mainloop_new NULL; Ev_vlc_mutex_unlock])
| Init_start_fails h :
    refs g = 0 -> pa_threaded_mainloop_new pa = Some h ->
    pa_threaded_mainloop_start pa < 0 ->
    init_branch pa g
      (Ret (Some h), g,
       [Ev_vlc_mutex_lock; Ev_mainloop_new (Some h);
        Ev_mainloop_start (Some h) (pa_threaded_mainloop_start pa);
        Ev_mainloop_free (Some h); Ev_vlc_mutex_unlock])
| Init_starts h :
    refs g = 0 -> pa_threaded_mainloop_new pa = Some h ->
    0 <= pa_threaded_mainloop_start pa ->
    init_branch pa g
      (Ret (Some h), mkGlobals (Some h) 1,
       [Ev_vlc_mutex_lock; Ev_mainloop_new (Some h);
        Ev_mainloop_start (Some h) (pa_threaded_mainloop_start pa);
        Ev_refs_incr 1; Ev_vlc_mutex_unlock])
| Init_refused :
    refs g <> 0 -> refs g < UINT_MAX ->
    init_branch pa g (Ret NULL, g, [Ev_vlc_mutex_lock; Ev_vlc_mutex_unlock])
| Init_shares h :
    refs g <> 0 -> UINT_MAX <= refs g -> vlc_pa_mainloop g = Some h ->
    init_branch pa g
      (Ret (Some h), mkGlobals (Some h) (to_unsigned (refs g + 1)),
       [Ev_vlc_mutex_lock; Ev_refs_incr (to_unsigned (refs g + 1));
        Ev_vlc_mutex_unlock])
| Init_asserts :
    refs g <> 0 -> UINT_MAX <= refs g -> vlc_pa_mainloop g = NULL ->
    init_branch pa g (Abort, g, [Ev_vlc_mutex_lock]).



(** ** Properties *)

Ltac run :=
  unfold vlc_pa_disconnect, vlc_pa_connect, vlc_pa_connect_fail,
    vlc_pa_error, context_wait, vlc_pa_mainloop_deinit, vlc_pa_mainloop_init,
    refs_predecr, refs_postincr, store_refs, store_vlc_pa_mainloop,
    load_vlc_pa_mainloop, load_refs, c_assert, emit, block, bind, ret,
    unlikely, NULL;
  cbn [refs vlc_pa_mainloop is_NULL negb app fst snd].

(** *** [vlc_pa_mainloop_init], branch by branch *)

Lemma init_no_holder_new_fails (pa : libpulse) (g : globals) :
  refs g = 0 ->
  pa_threaded_mainloop_new pa = NULL ->
  vlc_pa_mainloop_init pa g
  = (Ret NULL, g,
     [Ev_vlc_mutex_lock; Ev_mainloop_new NULL; Ev_vlc_mutex_unlock]).
Proof.
  intros Hr Hn. destruct g as [m r].
  cbn [refs vlc_pa_mainloop] in *. subst r.
  run. rewrite Hn. reflexivity.
Qed.

Lemma init_no_holder_start_fails (pa : libpulse) (g : globals)
    (h : pa_threaded_mainloop) :
  refs g = 0 ->
  pa_threaded_mainloop_new pa = Some h ->
  pa_threaded_mainloop_start pa < 0 ->
  vlc_pa_mainloop_init pa g
  = (Ret (Some h), g,
     [Ev_vlc_mutex_lock; Ev_mainloop_new (Some h);
      Ev_mainloop_start (Some h) (pa_threaded_mainloop_start pa);
      Ev_mainloop_free (Some h); Ev_vlc_mutex_unlock]).
Proof.
  intros Hr Hn Hs. destruct g as [m r].
  cbn [refs vlc_pa_mainloop] in *. subst r.
  run. rewrite Hn. cbn.
  apply Z.ltb_lt in Hs. rewrite Hs. reflexivity.
Qed.

Lemma init_no_holder_starts (pa : libpulse) (g : globals)
    (h : pa_threaded_mainloop) :
  refs g = 0 ->
  pa_threaded_mainloop_new pa = Some h ->
  0 <= pa_threaded_mainloop_start pa ->
  vlc_pa_mainloop_init pa g
  = (Ret (Some h), mkGlobals (Some h) 1,
     [Ev_vlc_mutex_lock; Ev_mainloop_new (Some h);
      Ev_mainloop_start (Some h) (pa_threaded_mainloop_start pa);
      Ev_refs_incr 1; Ev_vlc_mutex_unlock]).
Proof.
  intros Hr Hn Hs. destruct g as [m r].
  cbn [refs vlc_pa_mainloop] in *. subst r.
  run. rewrite Hn. cbn.
  apply Z.ltb_ge in Hs. rewrite Hs. reflexivity.
Qed.

Lemma init_holders_below_max (pa : libpulse) (g : globals) :
  refs g <> 0 ->
  refs g < UINT_MAX ->
  vlc_pa_mainloop_init pa g
  = (Ret NULL, g, [Ev_vlc_mutex_lock; Ev_vlc_mutex_unlock]).
Proof.
  intros Hr Hm. destruct g as [m r]. cbn [refs vlc_pa_mainloop] in *.
  run. apply Z.eqb_neq in Hr. apply Z.ltb_lt in Hm.
  rewrite Hr, Hm. reflexivity.
Qed.

Lemma init_holders_not_below_max (pa : libpulse) (g : globals)
    (h : pa_threaded_mainloop) :
  refs g <> 0 ->
  UINT_MAX <= refs g ->
  vlc_pa_mainloop g = Some h ->
  vlc_pa_mainloop_init pa g
  = (Ret (Some h), mkGlobals (Some h) (to_unsigned (refs g + 1)),
     [Ev_vlc_mutex_lock; Ev_refs_incr (to_unsigned (refs g + 1));
      Ev_vlc_mutex_unlock]).
Proof.
  intros Hr Hm Hp. destruct g as [m r].
  cbn [refs vlc_pa_mainloop] in *. subst m.
  run. apply Z.eqb_neq in Hr. apply Z.ltb_ge in Hm.
  rewrite Hr, Hm. reflexivity.
Qed.

(** The count never changes when [vlc_pa_mainloop_init] creates no loop
    or cannot start it. *)
Lemma init_creation_failure_keeps_refs (pa : libpulse) (g : globals) :
  refs g = 0 ->
  pa_threaded_mainloop_new pa = NULL \/ pa_threaded_mainloop_start pa < 0 ->
  globals_of (vlc_pa_mainloop_init pa g) = g.
Proof.
  intros Hr H.
  destruct (pa_threaded_mainloop_new pa) as [h|] eqn:Hn.
  - destruct H as [H|H]; [discriminate|].
    rewrite (init_no_holder_start_fails pa g h Hr Hn H). reflexivity.
  - rewrite (init_no_holder_new_fails pa g Hr Hn). reflexivity.
Qed.

(** The loop thread is started by [vlc_pa_mainloop_init] only when there is
    no holder. *)
Lemma init_starts_only_without_holder (pa : libpulse) (g : globals) :
  refs g <> 0 ->
  count is_start (events_of (vlc_pa_mainloop_init pa g)) = 0%nat.
Proof.
  intros Hr. destruct g as [m r]. cbn [refs vlc_pa_mainloop] in *.
  apply Z.eqb_neq in Hr. run. rewrite Hr.
  destruct (r <? UINT_MAX); cbn; [reflexivity|].
  destruct m; reflexivity.
Qed.

(** A call of [vlc_pa_mainloop_init] that returns a pointer and leaves the
    count one higher is the call of the first holder. *)
Lemma init_acquired_inv (pa : libpulse) (g g1 : globals)
    (h : pa_threaded_mainloop) (t1 : list event) :
  vlc_pa_mainloop_init pa g = (Ret (Some h), g1, t1) ->
  refs g1 = refs g + 1 ->
  refs g = 0 /\ pa_threaded_mainloop_new pa = Some h
  /\ 0 <= pa_threaded_mainloop_start pa
  /\ g1 = mkGlobals (Some h) 1
  /\ t1 = [Ev_vlc_mutex_lock; Ev_mainloop_new (Some h);
           Ev_mainloop_start (Some h) (pa_threaded_mainloop_start pa);
           Ev_refs_incr 1; Ev_vlc_mutex_unlock].
Proof.
  intros H Hinc.
  destruct (Z.eq_dec (refs g) 0) as [Hr|Hr].
  - destruct (pa_threaded_mainloop_new pa) as [h'|] eqn:Hn.
    + destruct (Z_lt_le_dec (pa_threaded_mainloop_start pa) 0) as [Hs|Hs].
      * rewrite (init_no_holder_start_fails pa g h' Hr Hn Hs) in H.
        inversion H; subst. lia.
      * rewrite (init_no_holder_starts pa g h' Hr Hn Hs) in H.
        inversion H; subst. repeat split; auto.
    + rewrite (init_no_holder_new_fails pa g Hr Hn) in H. discriminate.
  - destruct (Z_lt_le_dec (refs g) UINT_MAX) as [Hm|Hm].
    + rewrite (init_holders_below_max pa g Hr Hm) in H. discriminate.
    + destruct (vlc_pa_mainloop g) as [h'|] eqn:Hp.
      * rewrite (init_holders_not_below_max pa g h' Hr Hm Hp) in H.
        inversion H; subst. cbn [refs vlc_pa_mainloop] in *. exfalso.
        unfold to_unsigned, UINT_MAX, UINT_WIDTH in *.
        pose proof (Z.mod_pos_bound (refs g + 1) (2 ^ 32) ltac:(lia)). lia.
      * exfalso. revert H. destruct g as [m r].
        cbn [refs vlc_pa_mainloop] in *. subst m.
        apply Z.eqb_neq in Hr. apply Z.ltb_ge in Hm.
        run. rewrite Hr, Hm. cbn. discriminate.
Qed.

(** *** [vlc_pa_mainloop_deinit], branch by branch *)

Lemma deinit_assert_refs (m : ptr pa_threaded_mainloop) (g : globals) :
  refs g <= 0 ->
  vlc_pa_mainloop_deinit m g = (Abort, g, [Ev_vlc_mutex_lock]).
Proof.
  intros Hr. destruct g as [p r]. cbn [refs vlc_pa_mainloop] in *. run.
  apply Z.ltb_ge in Hr. rewrite Hr. reflexivity.
Qed.

Lemma deinit_assert_mainloop (m : ptr pa_threaded_mainloop) (g : globals) :
  0 < refs g ->
  ptr_eqb m (vlc_pa_mainloop g) = false ->
  vlc_pa_mainloop_deinit m g = (Abort, g, [Ev_vlc_mutex_lock]).
Proof.
  intros Hr Hp. destruct g as [p r]. cbn [refs vlc_pa_mainloop] in *. run.
  apply Z.ltb_lt in Hr. rewrite Hr. cbn. rewrite Hp. reflexivity.
Qed.

Lemma deinit_other_holders (m : ptr pa_threaded_mainloop) (g : globals) :
  0 < refs g ->
  ptr_eqb m (vlc_pa_mainloop g) = true ->
  0 < to_unsigned (refs g - 1) ->
  vlc_pa_mainloop_deinit m g
  = (Ret tt, mkGlobals (vlc_pa_mainloop g) (to_unsigned (refs g - 1)),
     [Ev_vlc_mutex_lock; Ev_refs_decr (to_unsigned (refs g - 1));
      Ev_vlc_mutex_unlock]).
Proof.
  intros Hr Hp Hd. destruct g as [p r]. cbn [refs vlc_pa_mainloop] in *. run.
  apply Z.ltb_lt in Hr. rewrite Hr. cbn. rewrite Hp. cbn.
  apply Z.ltb_lt in Hd. rewrite Hd. reflexivity.
Qed.

Lemma deinit_last_holder (m : ptr pa_threaded_mainloop) (g : globals) :
  0 < refs g ->
  ptr_eqb m (vlc_pa_mainloop g) = true ->
  to_unsigned (refs g - 1) <= 0 ->
  vlc_pa_mainloop_deinit m g
  = (Ret tt, mkGlobals (vlc_pa_mainloop g) (to_unsigned (refs g - 1)),
     Ev_vlc_mutex_lock :: Ev_refs_decr (to_unsigned (refs g - 1))
     :: Ev_vlc_mutex_unlock
     :: (if is_NULL m then []
         else [Ev_mainloop_stop m; Ev_mainloop_free m])).
Proof.
  intros Hr Hp Hd. destruct g as [p r]. cbn [refs vlc_pa_mainloop] in *. run.
  apply Z.ltb_lt in Hr. rewrite Hr. cbn. rewrite Hp. cbn.
  apply Z.ltb_ge in Hd. rewrite Hd. destruct m; reflexivity.
Qed.

Lemma ptr_eqb_eq (p q : ptr nat) : ptr_eqb p q = true <-> p = q.
Proof.
  destruct p as [a|], q as [b|]; cbn; split; intros H;
    try discriminate; try reflexivity.
  - apply Nat.eqb_eq in H. now subst.
  - inversion H. apply Nat.eqb_refl.
Qed.

(** *** Sequencing *)

Lemma bind_ret_step {A B : Type} (m : M A) (k : A -> M B) (g g1 : globals)
    (a : A) (t1 : list event) :
  m g = (Ret a, g1, t1) ->
  bind m k g
  = (outcome_of (k a g1), globals_of (k a g1), t1 ++ events_of (k a g1)).
Proof.
  intros H. unfold bind. rewrite H.
  destruct (k a g1) as [[o g2] t2]. reflexivity.
Qed.

Lemma bind_abort_step {A B : Type} (m : M A) (k : A -> M B) (g g1 : globals)
    (t1 : list event) :
  m g = (Abort, g1, t1) -> bind m k g = (Abort, g1, t1).
Proof. intros H. unfold bind. now rewrite H. Qed.

(** *** The discipline of one release per acquired pointer *)

(** As long as every created loop can be started, a caller that releases
    what it acquired never fails an assertion of [vlc_pa_mainloop_deinit]. *)
Lemma client_asserts_hold (reqs : list request) :
  all_starts_succeed reqs ->
  forall held g, balanced held g ->
  outcome_of (client held reqs g) = Ret tt.
Proof.
  induction 1 as [|r reqs Hr Hall IH]; intros held g Hb; [reflexivity|].
  destruct r as [pa|]; cbn [client].
  - destruct Hb as [[-> Hz]|[h [-> [H1 Hp]]]].
    + destruct (pa_threaded_mainloop_new pa) as [h|] eqn:Hn.
      * destruct Hr as [Hr|Hr]; [rewrite Hn in Hr; discriminate|].
        rewrite (bind_ret_step _ _ _ _ _ _
                   (init_no_holder_starts pa g h Hz Hn Hr)).
        cbn [outcome_of fst]. apply IH. right. exists h. auto.
      * rewrite (bind_ret_step _ _ _ _ _ _
                   (init_no_holder_new_fails pa g Hz Hn)).
        cbn [outcome_of fst]. apply IH. left. auto.
    + assert (Hnz : refs g <> 0) by lia.
      assert (Hlt : refs g < UINT_MAX) by (rewrite H1; reflexivity).
      rewrite (bind_ret_step _ _ _ _ _ _
                 (init_holders_below_max pa g Hnz Hlt)).
      cbn [outcome_of fst]. apply IH. right. exists h. auto.
  - destruct Hb as [[-> Hz]|[h [-> [H1 Hp]]]].
    + apply IH. left. auto.
    + assert (Hpos : 0 < refs g) by lia.
      assert (Heq : ptr_eqb (Some h) (vlc_pa_mainloop g) = true)
        by (apply ptr_eqb_eq; auto).
      assert (Hd : to_unsigned (refs g - 1) <= 0)
        by (rewrite H1; cbn; lia).
      rewrite (bind_ret_step _ _ _ _ _ _
                 (deinit_last_holder (Some h) g Hpos Heq Hd)).
      cbn [outcome_of fst]. apply IH. left. split; [reflexivity|].
      cbn [refs]. rewrite H1. reflexivity.
Qed.

(** [vlc_pa_mainloop_deinit] fails an assertion exactly when the count is
    not positive or the pointer is not the one in [vlc_pa_mainloop]. *)
Lemma deinit_aborts_iff (m : ptr pa_threaded_mainloop) (g : globals) :
  outcome_of (vlc_pa_mainloop_deinit m g) = Abort
  <-> ~ (0 < refs g /\ m = vlc_pa_mainloop g).
Proof.
  destruct (Z_lt_le_dec 0 (refs g)) as [Hr|Hr].
  - destruct (ptr_eqb m (vlc_pa_mainloop g)) eqn:Hp.
    + assert (Hm : m = vlc_pa_mainloop g) by (now apply ptr_eqb_eq).
      destruct (Z_lt_le_dec 0 (to_unsigned (refs g - 1))) as [Hd|Hd].
      * rewrite (deinit_other_holders m g Hr Hp Hd). cbn.
        split; [discriminate|]. intros H. exfalso. apply H. auto.
      * rewrite (deinit_last_holder m g Hr Hp Hd). cbn.
        split; [discriminate|]. intros H. exfalso. apply H. auto.
    + rewrite (deinit_assert_mainloop m g Hr Hp). cbn.
      split; [|reflexivity]. intros _ [_ Hm].
      apply ptr_eqb_eq in Hm. congruence.
  - rewrite (deinit_assert_refs m g Hr). cbn.
    split; [|reflexivity]. intros _ [Hpos _]. lia.
Qed.

(** *** Acquire and release *)

(** C1: with one holder already present (count 1, below [UINT_MAX]),
    [vlc_pa_mainloop_init] takes the branch guarded by [refs < UINT_MAX]:
    it returns NULL and leaves the count at 1, instead of returning the
    existing loop and counting 2.  With the count at [UINT_MAX] it returns
    the existing loop and the counter wraps to 0, instead of failing. *)
Theorem vlc_pa_mainloop_init_with_holder :
  vlc_pa_mainloop_init pa_accepts (mkGlobals (Some 1%nat) 1)
  = (Ret NULL, mkGlobals (Some 1%nat) 1,
     [Ev_vlc_mutex_lock; Ev_vlc_mutex_unlock])
  /\ vlc_pa_mainloop_init pa_accepts (mkGlobals (Some 1%nat) UINT_MAX)
     = (Ret (Some 1%nat), mkGlobals (Some 1%nat) 0,
        [Ev_vlc_mutex_lock; Ev_refs_incr 0; Ev_vlc_mutex_unlock]).
Proof. split; vm_compute; reflexivity. Qed.

(** Acquire, acquire, release, release from the initial state, every
    library call succeeding.  The first acquire starts the thread; the
    second returns NULL and the count stays 1; so the first release already
    brings the count to zero and stops the thread, and a further release
    fails [assert (refs > 0)]. *)
Theorem acquire_twice_release_twice :
  run_calls [Call_init pa_accepts; Call_init pa_accepts;
             Call_deinit (Some 1%nat); Call_deinit (Some 1%nat)] initial
  = [(Ret (Some 1%nat),
      [Ev_vlc_mutex_lock; Ev_mainloop_new (Some 1%nat);
       Ev_mainloop_start (Some 1%nat) 0; Ev_refs_incr 1;
       Ev_vlc_mutex_unlock]);
     (Ret NULL, [Ev_vlc_mutex_lock; Ev_vlc_mutex_unlock]);
     (Ret NULL,
      [Ev_vlc_mutex_lock; Ev_refs_decr 0; Ev_vlc_mutex_unlock;
       Ev_mainloop_stop (Some 1%nat); Ev_mainloop_free (Some 1%nat)]);
     (Abort, [Ev_vlc_mutex_lock])].
Proof. vm_compute. reflexivity. Qed.

(** C4: with no holder, a loop that is created but whose thread cannot be
    started is freed, and the count stays 0; but the local [mainloop] is
    not reset before [goto out], so [vlc_pa_mainloop_init] returns the
    freed, non-null pointer instead of NULL: it does not report failure. *)
Theorem vlc_pa_mainloop_init_start_failure :
  vlc_pa_mainloop_init pa_start_fails initial
  = (Ret (Some 1%nat), initial,
     [Ev_vlc_mutex_lock; Ev_mainloop_new (Some 1%nat);
      Ev_mainloop_start (Some 1%nat) (-1); Ev_mainloop_free (Some 1%nat);
      Ev_vlc_mutex_unlock]).
Proof. vm_compute. reflexivity. Qed.

(** C9: a caller that releases exactly the non-null pointers it acquired
    fails [assert (refs > 0)] when the loop thread could not be started:
    the acquire returned a non-null pointer without counting it.
    [vlc_pa_connect] is such a caller: with a loop that cannot be started
    it ends in the failed assertion of its own release. *)
Theorem release_assertion_reachable :
  client [] [Req_acquire pa_start_fails; Req_release] initial
  = (Abort, initial,
     [Ev_vlc_mutex_lock; Ev_mainloop_new (Some 1%nat);
      Ev_mainloop_start (Some 1%nat) (-1); Ev_mainloop_free (Some 1%nat);
      Ev_vlc_mutex_unlock; Ev_vlc_mutex_lock])
  /\ outcome_of (vlc_pa_connect pa_start_fails initial) = Abort.
Proof. split; vm_compute; reflexivity. Qed.

(** *** Events and what comes before them *)

Lemma each_after_split (ok : list event -> event -> bool) :
  forall pre t before e post,
    each_after ok before t = true ->
    t = pre ++ e :: post ->
    ok (before ++ pre) e = true.
Proof.
  induction pre as [|a pre IH]; intros t before e post H ->; cbn in H;
    apply andb_prop in H; destruct H as [Ha Ht].
  - now rewrite app_nil_r.
  - replace (before ++ a :: pre) with ((before ++ [a]) ++ pre)
      by (rewrite <- app_assoc; reflexivity).
    eapply IH; [exact Ht | reflexivity].
Qed.

Lemma each_after_app (ok : list event -> event -> bool) :
  forall t1 before t2,
    each_after ok before (t1 ++ t2)
    = each_after ok before t1 && each_after ok (before ++ t1) t2.
Proof.
  induction t1 as [|a t1 IH]; intros before t2; cbn.
  - now rewrite app_nil_r.
  - rewrite IH, <- app_assoc, andb_assoc. reflexivity.
Qed.

(** *** Release *)

(** The two ways [vlc_pa_mainloop_deinit] ends. *)
Lemma deinit_cases (m : ptr pa_threaded_mainloop) (g : globals) :
  (~ (0 < refs g /\ m = vlc_pa_mainloop g)
   /\ vlc_pa_mainloop_deinit m g = (Abort, g, [Ev_vlc_mutex_lock]))
  \/ (0 < refs g /\ m = vlc_pa_mainloop g
      /\ vlc_pa_mainloop_deinit m g
         = (Ret tt, mkGlobals (vlc_pa_mainloop g) (to_unsigned (refs g - 1)),
            Ev_vlc_mutex_lock :: Ev_refs_decr (to_unsigned (refs g - 1))
            :: Ev_vlc_mutex_unlock
            :: (if (0 <? to_unsigned (refs g - 1)) || is_NULL m then []
                else [Ev_mainloop_stop m; Ev_mainloop_free m]))).
Proof.
  destruct (Z_lt_le_dec 0 (refs g)) as [Hr|Hr].
  - destruct (ptr_eqb m (vlc_pa_mainloop g)) eqn:Hp.
    + assert (Hm : m = vlc_pa_mainloop g) by (now apply ptr_eqb_eq).
      right. split; [exact Hr|]. split; [exact Hm|].
      destruct (Z_lt_le_dec 0 (to_unsigned (refs g - 1))) as [Hd|Hd].
      * rewrite (deinit_other_holders m g Hr Hp Hd).
        apply Z.ltb_lt in Hd. rewrite Hd. reflexivity.
      * rewrite (deinit_last_holder m g Hr Hp Hd).
        apply Z.ltb_ge in Hd. rewrite Hd. reflexivity.
    + left. split; [|apply (deinit_assert_mainloop m g Hr Hp)].
      intros [_ Hm]. apply ptr_eqb_eq in Hm. congruence.
  - left. split; [lia|apply (deinit_assert_refs m g Hr)].
Qed.

Lemma mutex_held_app (before l : list event) :
  mutex_held (before ++ l) = fold_left mutex_step l (mutex_held before).
Proof. unfold mutex_held. apply fold_left_app. Qed.

Lemma loop_lock_depth_app (before l : list event) :
  loop_lock_depth (before ++ l)
  = fold_left loop_lock_step l (loop_lock_depth before).
Proof. unfold loop_lock_depth. apply fold_left_app. Qed.

Lemma count_app (p : event -> bool) (before l : list event) :
  count p (before ++ l) = (count p before + count p l)%nat.
Proof. unfold count. now rewrite filter_app, length_app. Qed.

Lemma deinit_mutex_discipline (m : ptr pa_threaded_mainloop) (g : globals)
    (before : list event) :
  mutex_held before = false ->
  each_after mutex_discipline before (events_of (vlc_pa_mainloop_deinit m g))
  = true.
Proof.
  intros Hb.
  destruct (deinit_cases m g) as [[_ ->]|[_ [_ ->]]]; cbn [events_of snd].
  - cbn [each_after]. unfold mutex_discipline. reflexivity.
  - destruct ((0 <? to_unsigned (refs g - 1)) || is_NULL m);
      cbn [each_after]; unfold mutex_discipline;
      rewrite <- ?app_assoc; cbn [app];
      rewrite ?mutex_held_app, Hb; reflexivity.
Qed.

(** C5: [vlc_pa_mainloop_deinit] decrements the count with the static
    mutex held, and stops and frees the loop only with the mutex released;
    when it returns, the count is one lower (decremented once), and a
    non-null loop whose count reached zero has been stopped and freed,
    after the unlock. *)
Theorem vlc_pa_mainloop_deinit_stops_outside_mutex
    (m : ptr pa_threaded_mainloop) (g : globals) :
  (forall pre e post,
      events_of (vlc_pa_mainloop_deinit m g) = pre ++ e :: post ->
      (is_refs_decr e = true -> mutex_held pre = true)
      /\ (is_stop_or_free e = true -> mutex_held pre = false))
  /\ (outcome_of (vlc_pa_mainloop_deinit m g) = Ret tt ->
      refs (globals_of (vlc_pa_mainloop_deinit m g))
      = to_unsigned (refs g - 1)
      /\ count is_refs_decr (events_of (vlc_pa_mainloop_deinit m g)) = 1%nat)
  /\ (forall h, m = Some h ->
      outcome_of (vlc_pa_mainloop_deinit m g) = Ret tt ->
      refs (globals_of (vlc_pa_mainloop_deinit m g)) = 0 ->
      events_of (vlc_pa_mainloop_deinit m g)
      = [Ev_vlc_mutex_lock; Ev_refs_decr 0; Ev_vlc_mutex_unlock;
         Ev_mainloop_stop (Some h); Ev_mainloop_free (Some h)])
  /\ (outcome_of (vlc_pa_mainloop_deinit m g) = Ret tt ->
      0 < refs (globals_of (vlc_pa_mainloop_deinit m g)) ->
      count is_stop_or_free (events_of (vlc_pa_mainloop_deinit m g)) = 0%nat).
Proof.
  split; [|split; [|split]].
  - intros pre e post H.
    pose proof (each_after_split mutex_discipline pre _ [] e post
                  (deinit_mutex_discipline m g [] eq_refl) H) as Hok.
    cbn [app] in Hok. unfold mutex_discipline in Hok.
    apply andb_prop in Hok. destruct Hok as [H1 H2].
    split; intros He; rewrite He in *.
    + rewrite orb_true_r in H1. exact H1.
    + cbn in H2. now apply negb_true_iff in H2.
  - destruct (deinit_cases m g) as [[_ ->]|[_ [_ ->]]]; cbn [outcome_of fst];
      [discriminate|]. intros _. cbn [globals_of snd fst refs events_of].
    split; [reflexivity|].
    destruct ((0 <? to_unsigned (refs g - 1)) || is_NULL m); reflexivity.
  - intros h ->.
    destruct (deinit_cases (Some h) g) as [[_ ->]|[_ [_ ->]]];
      cbn [outcome_of fst]; [discriminate|].
    intros _. cbn [globals_of snd fst refs events_of is_NULL].
    intros ->. reflexivity.
  - destruct (deinit_cases m g) as [[_ ->]|[_ [_ ->]]]; cbn [outcome_of fst];
      [discriminate|]. intros _. cbn [globals_of snd fst refs events_of].
    intros Hpos. apply Z.ltb_lt in Hpos. rewrite Hpos. reflexivity.
Qed.

Lemma vlc_pa_mainloop_deinit_stops_outside_mutex_witness :
  mutex_held [Ev_vlc_mutex_lock] = true
  /\ mutex_held [Ev_vlc_mutex_lock; Ev_refs_decr 0; Ev_vlc_mutex_unlock]
     = false
  /\ events_of (vlc_pa_mainloop_deinit (Some 1%nat) (mkGlobals (Some 1%nat) 1))
     = [Ev_vlc_mutex_lock; Ev_refs_decr 0; Ev_vlc_mutex_unlock;
        Ev_mainloop_stop (Some 1%nat); Ev_mainloop_free (Some 1%nat)]
  /\ count is_stop_or_free
       (events_of (vlc_pa_mainloop_deinit (Some 1%nat)
                     (mkGlobals (Some 1%nat) 2))) = 0%nat.
Proof.
  destruct (vlc_pa_mainloop_deinit_stops_outside_mutex
              (Some 1%nat) (mkGlobals (Some 1%nat) 1)) as [H1 [_ [H3 _]]].
  destruct (vlc_pa_mainloop_deinit_stops_outside_mutex
              (Some 1%nat) (mkGlobals (Some 1%nat) 2)) as [_ [_ [_ H4]]].
  split; [|split; [|split]].
  - apply (H1 [Ev_vlc_mutex_lock] (Ev_refs_decr 0)
              [Ev_vlc_mutex_unlock; Ev_mainloop_stop (Some 1%nat);
               Ev_mainloop_free (Some 1%nat)]); reflexivity.
  - apply (H1 [Ev_vlc_mutex_lock; Ev_refs_decr 0; Ev_vlc_mutex_unlock]
              (Ev_mainloop_stop (Some 1%nat))
              [Ev_mainloop_free (Some 1%nat)]); reflexivity.
  - apply (H3 1%nat); reflexivity.
  - apply H4; [reflexivity | vm_compute; reflexivity].
Defined.

(** *** Disconnection *)

Lemma vlc_pa_disconnect_unfold (ctx : ptr pa_context) (g : globals) :
  vlc_pa_disconnect ctx g
  = (outcome_of (vlc_pa_mainloop_deinit (vlc_pa_mainloop g) g),
     globals_of (vlc_pa_mainloop_deinit (vlc_pa_mainloop g) g),
     [Ev_mainloop_lock (vlc_pa_mainloop g); Ev_context_unref ctx;
      Ev_mainloop_unlock (vlc_pa_mainloop g)]
     ++ events_of (vlc_pa_mainloop_deinit (vlc_pa_mainloop g) g)).
Proof.
  unfold vlc_pa_disconnect, load_vlc_pa_mainloop, emit, bind.
  destruct (vlc_pa_mainloop_deinit (vlc_pa_mainloop g) g) as [[o g'] t].
  reflexivity.
Qed.

Lemma disconnect_discipline_holds (ctx : ptr pa_context) (g : globals) :
  each_after disconnect_discipline [] (events_of (vlc_pa_disconnect ctx g))
  = true.
Proof.
  rewrite vlc_pa_disconnect_unfold. cbn [events_of snd].
  destruct (deinit_cases (vlc_pa_mainloop g) g) as [[_ ->]|[_ [_ ->]]];
    cbn [events_of snd]; [reflexivity|].
  destruct ((0 <? to_unsigned (refs g - 1)) || is_NULL (vlc_pa_mainloop g));
    reflexivity.
Qed.

(** C7: [vlc_pa_disconnect] drops the reference to the context between
    the lock and the unlock of the loop, then calls
    [vlc_pa_mainloop_deinit]: every step of the release comes after the
    unref and with the loop's lock released.  When the caller was the last
    holder, the release stops and frees the loop thread. *)
Theorem vlc_pa_disconnect_unref_then_release
    (ctx : ptr pa_context) (g : globals) :
  events_of (vlc_pa_disconnect ctx g)
  = [Ev_mainloop_lock (vlc_pa_mainloop g); Ev_context_unref ctx;
     Ev_mainloop_unlock (vlc_pa_mainloop g)]
    ++ events_of (vlc_pa_mainloop_deinit (vlc_pa_mainloop g) g)
  /\ (forall pre e post,
        events_of (vlc_pa_disconnect ctx g) = pre ++ e :: post ->
        (is_context_unref e = true ->
         loop_lock_depth pre = 1%nat /\ count is_context_unref pre = 0%nat)
        /\ (is_deinit_event e = true ->
            loop_lock_depth pre = 0%nat
            /\ count is_context_unref pre = 1%nat))
  /\ (forall h, vlc_pa_mainloop g = Some h -> refs g = 1 ->
        vlc_pa_disconnect ctx g
        = (Ret tt, mkGlobals (Some h) 0,
           [Ev_mainloop_lock (Some h); Ev_context_unref ctx;
            Ev_mainloop_unlock (Some h);
            Ev_vlc_mutex_lock; Ev_refs_decr 0; Ev_vlc_mutex_unlock;
            Ev_mainloop_stop (Some h); Ev_mainloop_free (Some h)])).
Proof.
  split; [|split].
  - rewrite vlc_pa_disconnect_unfold. reflexivity.
  - intros pre e post H.
    pose proof (each_after_split disconnect_discipline pre _ [] e post
                  (disconnect_discipline_holds ctx g) H) as Hok.
    cbn [app] in Hok. unfold disconnect_discipline in Hok.
    apply andb_prop in Hok. destruct Hok as [H1 H2].
    split; intros He; rewrite He in *; cbn [implb] in *.
    + apply andb_prop in H1. destruct H1 as [Ha Hb].
      apply Nat.eqb_eq in Ha, Hb. auto.
    + apply andb_prop in H2. destruct H2 as [Ha Hb].
      apply Nat.eqb_eq in Ha, Hb. auto.
  - intros h Hp Hr. rewrite vlc_pa_disconnect_unfold, Hp.
    assert (Hpos : 0 < refs g) by lia.
    assert (Heq : ptr_eqb (Some h) (vlc_pa_mainloop g) = true)
      by (apply ptr_eqb_eq; auto).
    assert (Hd : to_unsigned (refs g - 1) <= 0)
      by (rewrite Hr; cbn; lia).
    rewrite (deinit_last_holder (Some h) g Hpos Heq Hd), Hp, Hr.
    reflexivity.
Qed.

Lemma vlc_pa_disconnect_unref_then_release_witness :
  loop_lock_depth [Ev_mainloop_lock (Some 1%nat)] = 1%nat
  /\ loop_lock_depth
       [Ev_mainloop_lock (Some 1%nat); Ev_context_unref (Some 2%nat);
        Ev_mainloop_unlock (Some 1%nat); Ev_vlc_mutex_lock;
        Ev_refs_decr 0; Ev_vlc_mutex_unlock] = 0%nat
  /\ vlc_pa_disconnect (Some 2%nat) (mkGlobals (Some 1%nat) 1)
     = (Ret tt, mkGlobals (Some 1%nat) 0,
        [Ev_mainloop_lock (Some 1%nat); Ev_context_unref (Some 2%nat);
         Ev_mainloop_unlock (Some 1%nat);
         Ev_vlc_mutex_lock; Ev_refs_decr 0; Ev_vlc_mutex_unlock;
         Ev_mainloop_stop (Some 1%nat); Ev_mainloop_free (Some 1%nat)]).
Proof.
  destruct (vlc_pa_disconnect_unref_then_release
              (Some 2%nat) (mkGlobals (Some 1%nat) 1)) as [_ [H2 H3]].
  split; [|split].
  - apply (H2 [Ev_mainloop_lock (Some 1%nat)] (Ev_context_unref (Some 2%nat))
              [Ev_mainloop_unlock (Some 1%nat); Ev_vlc_mutex_lock;
               Ev_refs_decr 0; Ev_vlc_mutex_unlock;
               Ev_mainloop_stop (Some 1%nat);
               Ev_mainloop_free (Some 1%nat)]); reflexivity.
  - apply (H2 [Ev_mainloop_lock (Some 1%nat); Ev_context_unref (Some 2%nat);
               Ev_mainloop_unlock (Some 1%nat); Ev_vlc_mutex_lock;
               Ev_refs_decr 0; Ev_vlc_mutex_unlock]
              (Ev_mainloop_stop (Some 1%nat))
              [Ev_mainloop_free (Some 1%nat)]); reflexivity.
  - apply (H3 1%nat); reflexivity.
Defined.

(** *** Waiting for the connection *)

Lemma final_state_cases (s : pa_context_state_t)
    (later : list pa_context_state_t) :
  final_state s later = Some PA_CONTEXT_READY
  \/ final_state s later = Some PA_CONTEXT_FAILED
  \/ final_state s later = Some PA_CONTEXT_TERMINATED
  \/ final_state s later = None.
Proof.
  revert s. induction later as [|s' later IH]; intros s;
    destruct s; cbn; auto.
Qed.

Lemma context_wait_value_spec (m : ptr pa_threaded_mainloop)
    (c : ptr pa_context) (later : list pa_context_state_t) :
  forall (s : pa_context_state_t) (g : globals),
    context_wait_value m c s later g
    = (match final_state s later with
       | Some PA_CONTEXT_READY => Ret 0
       | Some PA_CONTEXT_FAILED | Some PA_CONTEXT_TERMINATED => Ret (-1)
       | _ => Block
       end, g, polling m c s later).
Proof.
  induction later as [|s' later IH]; intros s g.
  - destruct s; reflexivity.
  - destruct s; try reflexivity;
      cbn [context_wait_value state_eqb negb orb final_state polling];
      unfold bind, emit; rewrite IH; reflexivity.
Qed.

Lemma polling_events (m : ptr pa_threaded_mainloop) (c : ptr pa_context)
    (later : list pa_context_state_t) :
  forall s, Forall (fun e => is_polling_event e = true) (polling m c s later).
Proof.
  induction later as [|s' later IH]; intros s.
  - destruct s; cbn; repeat constructor.
  - destruct s; cbn [polling]; repeat constructor; apply IH.
Qed.

(** The polling ends by reading the state at which it stops. *)
Lemma polling_last (m : ptr pa_threaded_mainloop) (c : ptr pa_context)
    (later : list pa_context_state_t) :
  forall s x, final_state s later = Some x ->
    exists t, polling m c s later = t ++ [Ev_context_get_state c x].
Proof.
  induction later as [|s' later IH]; intros s x H.
  - destruct s; cbn in H; try discriminate; inversion H; subst;
      exists []; reflexivity.
  - destruct s; cbn [final_state] in H;
      try (inversion H; subst; exists []; reflexivity);
      destruct (IH s' x H) as [t Ht]; cbn [polling]; rewrite Ht;
      eexists (_ :: _ :: t); reflexivity.
Qed.

(** *** Connection *)

Lemma bind_intro {A B : Type} (m : M A) (k : A -> M B) (g g1 g' : globals)
    (a : A) (o : outcome B) (t t1 t2 : list event) :
  m g = (Ret a, g1, t1) ->
  k a g1 = (o, g', t2) ->
  t = t1 ++ t2 ->
  bind m k g = (o, g', t).
Proof.
  intros Hm Hk ->. unfold bind. rewrite Hm, Hk. reflexivity.
Qed.

Lemma bind_block_step {A B : Type} (m : M A) (k : A -> M B) (g g1 : globals)
    (t1 : list event) :
  m g = (Block, g1, t1) -> bind m k g = (Block, g1, t1).
Proof. intros H. unfold bind. now rewrite H. Qed.

Ltac step :=
  eapply bind_intro;
    [ first [eassumption | reflexivity] | cbv beta | reflexivity ].

(** What [vlc_pa_connect] does from the label [fail]. *)
Lemma vlc_pa_connect_fail_spec (m : ptr pa_threaded_mainloop) (g : globals) :
  vlc_pa_connect_fail m g
  = (match outcome_of (vlc_pa_mainloop_deinit m g) with
     | Ret _ => Ret NULL
     | Abort => Abort
     | Block => Block
     end,
     globals_of (vlc_pa_mainloop_deinit m g),
     Ev_mainloop_unlock m :: events_of (vlc_pa_mainloop_deinit m g)).
Proof.
  unfold vlc_pa_connect_fail, bind, emit, ret.
  destruct (vlc_pa_mainloop_deinit m g) as [[o g'] t].
  destruct o; cbn; rewrite ?app_nil_r; reflexivity.
Qed.

Lemma vlc_pa_connect_ready (pa : libpulse) (g g1 : globals)
    (h : pa_threaded_mainloop) (c : pa_context) (t1 : list event) :
  vlc_pa_mainloop_init pa g = (Ret (Some h), g1, t1) ->
  pa_context_new pa = Some c ->
  0 <= pa_context_connect pa ->
  final_state (pa_context_get_state pa) (states_after_wait pa)
  = Some PA_CONTEXT_READY ->
  vlc_pa_connect pa g
  = (Ret (Some c), g1,
     t1 ++ connect_setup pa h c
     ++ polling (Some h) (Some c) (pa_context_get_state pa)
          (states_after_wait pa)
     ++ [Ev_mainloop_unlock (Some h)]).
Proof.
  intros Hi Hc Hrc Hf. apply Z.ltb_ge in Hrc.
  assert (Hw : context_wait (Some h) (Some c) pa g1
               = (Ret false, g1,
                  polling (Some h) (Some c) (pa_context_get_state pa)
                    (states_after_wait pa))).
  { unfold context_wait.
    eapply bind_intro;
      [ rewrite context_wait_value_spec, Hf; reflexivity
      | reflexivity
      | now rewrite app_nil_r ]. }
  cut (exists T, vlc_pa_connect pa g = (Ret (Some c), g1, T)
                 /\ T = t1 ++ connect_setup pa h c
                        ++ polling (Some h) (Some c) (pa_context_get_state pa)
                             (states_after_wait pa)
                        ++ [Ev_mainloop_unlock (Some h)]).
  { intros [T [H ->]]. exact H. }
  eexists. split.
  - unfold vlc_pa_connect. step. cbn [unlikely is_NULL].
    unfold emit. do 5 step. rewrite Hc. cbn [unlikely is_NULL].
    do 2 step. rewrite Hrc. step. cbv iota. step. reflexivity.
  - unfold connect_setup. rewrite Hc. cbn [app]. rewrite ?app_nil_r.
    reflexivity.
Qed.

Lemma result_eta {A : Type} (r : outcome A * globals * list event) :
  r = (outcome_of r, globals_of r, events_of r).
Proof. destruct r as [[o g] t]. reflexivity. Qed.

Lemma vlc_pa_connect_fail_outcome (m : ptr pa_threaded_mainloop)
    (g : globals) (c : pa_context) :
  outcome_of (vlc_pa_connect_fail m g) <> Ret (Some c).
Proof.
  rewrite vlc_pa_connect_fail_spec. cbn [outcome_of fst].
  destruct (outcome_of (vlc_pa_mainloop_deinit m g)); discriminate.
Qed.

Lemma vlc_pa_connect_no_loop (pa : libpulse) (g g1 : globals)
    (t1 : list event) :
  vlc_pa_mainloop_init pa g = (Ret NULL, g1, t1) ->
  vlc_pa_connect pa g = (Ret NULL, g1, t1).
Proof.
  intros Hi. unfold vlc_pa_connect.
  eapply bind_intro; [exact Hi | reflexivity | now rewrite app_nil_r].
Qed.

Lemma vlc_pa_connect_no_context (pa : libpulse) (g g1 : globals)
    (h : pa_threaded_mainloop) (t1 : list event) :
  vlc_pa_mainloop_init pa g = (Ret (Some h), g1, t1) ->
  pa_context_new pa = NULL ->
  vlc_pa_connect pa g
  = (outcome_of (vlc_pa_connect_fail (Some h) g1),
     globals_of (vlc_pa_connect_fail (Some h) g1),
     t1 ++ [Ev_var_InheritString "user-agent" (var_InheritString pa);
            Ev_mainloop_lock (Some h); Ev_mainloop_get_api (Some h);
            Ev_context_new (Some h) (var_InheritString pa) NULL;
            Ev_free (var_InheritString pa)]
     ++ events_of (vlc_pa_connect_fail (Some h) g1)).
Proof.
  intros Hi Hc.
  cut (exists T, vlc_pa_connect pa g
                 = (outcome_of (vlc_pa_connect_fail (Some h) g1),
                    globals_of (vlc_pa_connect_fail (Some h) g1), T)
                 /\ T = t1 ++ [Ev_var_InheritString "user-agent"
                                 (var_InheritString pa);
                               Ev_mainloop_lock (Some h);
                               Ev_mainloop_get_api (Some h);
                               Ev_context_new (Some h) (var_InheritString pa)
                                 NULL;
                               Ev_free (var_InheritString pa)]
                        ++ events_of (vlc_pa_connect_fail (Some h) g1)).
  { intros [T [H ->]]. exact H. }
  eexists. split.
  - unfold vlc_pa_connect. step. cbn [unlikely is_NULL].
    unfold emit. do 5 step. rewrite Hc. cbn [unlikely is_NULL].
    apply result_eta.
  - rewrite Hc. reflexivity.
Qed.

Lemma vlc_pa_connect_refused (pa : libpulse) (g g1 : globals)
    (h : pa_threaded_mainloop) (c : pa_context) (t1 : list event) :
  vlc_pa_mainloop_init pa g = (Ret (Some h), g1, t1) ->
  pa_context_new pa = Some c ->
  pa_context_connect pa < 0 ->
  vlc_pa_connect pa g
  = (outcome_of (vlc_pa_connect_fail (Some h) g1),
     globals_of (vlc_pa_connect_fail (Some h) g1),
     t1 ++ connect_setup pa h c ++ connect_failure_events pa c
     ++ events_of (vlc_pa_connect_fail (Some h) g1)).
Proof.
  intros Hi Hc Hrc. apply Z.ltb_lt in Hrc.
  cut (exists T, vlc_pa_connect pa g
                 = (outcome_of (vlc_pa_connect_fail (Some h) g1),
                    globals_of (vlc_pa_connect_fail (Some h) g1), T)
                 /\ T = t1 ++ connect_setup pa h c
                        ++ connect_failure_events pa c
                        ++ events_of (vlc_pa_connect_fail (Some h) g1)).
  { intros [T [H ->]]. exact H. }
  eexists. split.
  - unfold vlc_pa_connect. step. cbn [unlikely is_NULL].
    unfold vlc_pa_error, emit. do 5 step. rewrite Hc. cbn [unlikely is_NULL].
    do 2 step. rewrite Hrc. step. cbv iota. do 2 step.
    apply result_eta.
  - unfold connect_setup, connect_failure_events. rewrite Hc. reflexivity.
Qed.

Lemma vlc_pa_connect_terminal (pa : libpulse) (g g1 : globals)
    (h : pa_threaded_mainloop) (c : pa_context) (t1 : list event) :
  vlc_pa_mainloop_init pa g = (Ret (Some h), g1, t1) ->
  pa_context_new pa = Some c ->
  0 <= pa_context_connect pa ->
  final_state (pa_context_get_state pa) (states_after_wait pa)
  = Some PA_CONTEXT_FAILED
  \/ final_state (pa_context_get_state pa) (states_after_wait pa)
     = Some PA_CONTEXT_TERMINATED ->
  vlc_pa_connect pa g
  = (outcome_of (vlc_pa_connect_fail (Some h) g1),
     globals_of (vlc_pa_connect_fail (Some h) g1),
     t1 ++ connect_setup pa h c
     ++ polling (Some h) (Some c) (pa_context_get_state pa)
          (states_after_wait pa)
     ++ connect_failure_events pa c
     ++ events_of (vlc_pa_connect_fail (Some h) g1)).
Proof.
  intros Hi Hc Hrc Hf. apply Z.ltb_ge in Hrc.
  assert (Hw : context_wait (Some h) (Some c) pa g1
               = (Ret true, g1,
                  polling (Some h) (Some c) (pa_context_get_state pa)
                    (states_after_wait pa))).
  { unfold context_wait.
    eapply bind_intro;
      [ rewrite context_wait_value_spec; destruct Hf as [-> | ->]; reflexivity
      | reflexivity
      | now rewrite app_nil_r ]. }
  cut (exists T, vlc_pa_connect pa g
                 = (outcome_of (vlc_pa_connect_fail (Some h) g1),
                    globals_of (vlc_pa_connect_fail (Some h) g1), T)
                 /\ T = t1 ++ connect_setup pa h c
                        ++ polling (Some h) (Some c) (pa_context_get_state pa)
                             (states_after_wait pa)
                        ++ connect_failure_events pa c
                        ++ events_of (vlc_pa_connect_fail (Some h) g1)).
  { intros [T [H ->]]. exact H. }
  eexists. split.
  - unfold vlc_pa_connect. step. cbn [unlikely is_NULL].
    unfold vlc_pa_error, emit. do 5 step. rewrite Hc. cbn [unlikely is_NULL].
    do 2 step. rewrite Hrc. step. cbv iota. do 2 step.
    apply result_eta.
  - unfold connect_setup, connect_failure_events. rewrite Hc. reflexivity.
Qed.

Lemma vlc_pa_connect_blocked (pa : libpulse) (g g1 : globals)
    (h : pa_threaded_mainloop) (c : pa_context) (t1 : list event) :
  vlc_pa_mainloop_init pa g = (Ret (Some h), g1, t1) ->
  pa_context_new pa = Some c ->
  0 <= pa_context_connect pa ->
  final_state (pa_context_get_state pa) (states_after_wait pa) = None ->
  vlc_pa_connect pa g
  = (Block, g1,
     t1 ++ connect_setup pa h c
     ++ polling (Some h) (Some c) (pa_context_get_state pa)
          (states_after_wait pa)).
Proof.
  intros Hi Hc Hrc Hf. apply Z.ltb_ge in Hrc.
  assert (Hw : context_wait (Some h) (Some c) pa g1
               = (Block, g1,
                  polling (Some h) (Some c) (pa_context_get_state pa)
                    (states_after_wait pa))).
  { unfold context_wait. apply bind_block_step.
    rewrite context_wait_value_spec, Hf. reflexivity. }
  cut (exists T, vlc_pa_connect pa g = (Block, g1, T)
                 /\ T = t1 ++ connect_setup pa h c
                        ++ polling (Some h) (Some c) (pa_context_get_state pa)
                             (states_after_wait pa)).
  { intros [T [H ->]]. exact H. }
  eexists. split.
  - unfold vlc_pa_connect. step. cbn [unlikely is_NULL].
    unfold emit. do 5 step. rewrite Hc. cbn [unlikely is_NULL].
    do 2 step. rewrite Hrc. apply bind_block_step. exact Hw.
  - unfold connect_setup. rewrite Hc. reflexivity.
Qed.

Lemma count_polling (p : event -> bool) (t : list event) :
  (forall e, is_polling_event e = true -> p e = false) ->
  Forall (fun e => is_polling_event e = true) t ->
  count p t = 0%nat.
Proof.
  intros Hp. induction 1 as [|e t He _ IH]; [reflexivity|].
  unfold count in *. cbn [filter]. rewrite (Hp e He). exact IH.
Qed.

(** X22: when the acquisition of [vlc_pa_connect] returned the loop and
    counted its reference, the context was created, the connection request
    accepted, and the polling stops at Failed or Terminated,
    [vlc_pa_connect] logs the connection failure with the text of the
    server's error, drops the context, returns NULL, and has decremented
    the count exactly once: the count is back at its value before the
    call. *)
Theorem vlc_pa_connect_failed_state (pa : libpulse) (g g1 : globals)
    (h : pa_threaded_mainloop) (c : pa_context) (t1 : list event) :
  vlc_pa_mainloop_init pa g = (Ret (Some h), g1, t1) ->
  refs g1 = refs g + 1 ->
  pa_context_new pa = Some c ->
  0 <= pa_context_connect pa ->
  final_state (pa_context_get_state pa) (states_after_wait pa)
  = Some PA_CONTEXT_FAILED
  \/ final_state (pa_context_get_state pa) (states_after_wait pa)
     = Some PA_CONTEXT_TERMINATED ->
  outcome_of (vlc_pa_connect pa g) = Ret NULL
  /\ events_of (vlc_pa_connect pa g)
     = t1 ++ connect_setup pa h c
       ++ polling (Some h) (Some c) (pa_context_get_state pa)
            (states_after_wait pa)
       ++ [Ev_msg_Err ("PulseAudio server connection failure: "
                       ++ pa_strerror pa (pa_context_errno pa));
           Ev_context_unref (Some c);
           Ev_mainloop_unlock (Some h)]
       ++ events_of (vlc_pa_mainloop_deinit (Some h) g1)
  /\ count is_msg_Err (events_of (vlc_pa_connect pa g)) = 1%nat
  /\ count is_refs_decr (events_of (vlc_pa_connect pa g)) = 1%nat
  /\ refs (globals_of (vlc_pa_connect pa g)) = refs g.
Proof.
  intros Hi Hinc Hc Hrc Hf.
  rewrite (vlc_pa_connect_terminal pa g g1 h c t1 Hi Hc Hrc Hf).
  destruct (init_acquired_inv pa g g1 h t1 Hi Hinc)
    as [Hz [_ [_ [-> ->]]]].
  rewrite vlc_pa_connect_fail_spec.
  cbn [outcome_of globals_of events_of fst snd].
  assert (Hd : vlc_pa_mainloop_deinit (Some h) (mkGlobals (Some h) 1)
               = (Ret tt, mkGlobals (Some h) 0,
                  [Ev_vlc_mutex_lock; Ev_refs_decr 0; Ev_vlc_mutex_unlock;
                   Ev_mainloop_stop (Some h); Ev_mainloop_free (Some h)])).
  { rewrite deinit_last_holder; cbn [refs vlc_pa_mainloop];
      [reflexivity | lia | apply ptr_eqb_eq; reflexivity
      | vm_compute; discriminate]. }
  rewrite Hd. cbn [outcome_of globals_of events_of fst snd refs].
  pose proof (polling_events (Some h) (Some c) (states_after_wait pa)
                (pa_context_get_state pa)) as Hp.
  repeat split.
  - rewrite !count_app.
    rewrite (count_polling is_msg_Err _
               ltac:(intros [] ?; (discriminate || reflexivity)) Hp).
    reflexivity.
  - rewrite !count_app.
    rewrite (count_polling is_refs_decr _
               ltac:(intros [] ?; (discriminate || reflexivity)) Hp).
    reflexivity.
  - symmetry. exact Hz.
Qed.

Lemma vlc_pa_connect_failed_state_witness :
  vlc_pa_connect pa_refuses initial
  = (Ret NULL, mkGlobals (Some 1%nat) 0,
     [Ev_vlc_mutex_lock; Ev_mainloop_new (Some 1%nat);
      Ev_mainloop_start (Some 1%nat) 0; Ev_refs_incr 1; Ev_vlc_mutex_unlock;
      Ev_var_InheritString "user-agent" (Some "VLC media player"%string);
      Ev_mainloop_lock (Some 1%nat); Ev_mainloop_get_api (Some 1%nat);
      Ev_context_new (Some 1%nat) (Some "VLC media player"%string)
        (Some 2%nat);
      Ev_free (Some "VLC media player"%string);
      Ev_context_set_state_callback (Some 2%nat) (Some 1%nat);
      Ev_context_connect (Some 2%nat) 0;
      Ev_context_get_state (Some 2%nat) PA_CONTEXT_CONNECTING;
      Ev_mainloop_wait (Some 1%nat);
      Ev_context_get_state (Some 2%nat) PA_CONTEXT_FAILED;
      Ev_msg_Err "PulseAudio server connection failure: Connection refused";
      Ev_context_unref (Some 2%nat); Ev_mainloop_unlock (Some 1%nat);
      Ev_vlc_mutex_lock; Ev_refs_decr 0; Ev_vlc_mutex_unlock;
      Ev_mainloop_stop (Some 1%nat); Ev_mainloop_free (Some 1%nat)])
  /\ count is_refs_decr (events_of (vlc_pa_connect pa_refuses initial))
     = 1%nat.
Proof.
  destruct (vlc_pa_connect_failed_state pa_refuses initial
              (mkGlobals (Some 1%nat) 1) 1%nat 2%nat
              [Ev_vlc_mutex_lock; Ev_mainloop_new (Some 1%nat);
               Ev_mainloop_start (Some 1%nat) 0; Ev_refs_incr 1;
               Ev_vlc_mutex_unlock])
    as [Ho [He [_ [Hd Hr]]]].
  - reflexivity.
  - reflexivity.
  - reflexivity.
  - vm_compute. discriminate.
  - left. reflexivity.
  - split; [|exact Hd].
    rewrite (result_eta (vlc_pa_connect pa_refuses initial)), Ho, He.
    reflexivity.
Defined.

(** The events of an acquisition that returns a pointer. *)
Lemma init_pointer_events (pa : libpulse) (g g1 : globals)
    (h : pa_threaded_mainloop) (t1 : list event) :
  vlc_pa_mainloop_init pa g = (Ret (Some h), g1, t1) ->
  Forall (fun e => is_init_event e = true) t1
  /\ count is_mutex_op t1 = 2%nat
  /\ mutex_held t1 = false
  /\ loop_lock_depth t1 = 0%nat.
Proof.
  intros H.
  destruct (Z.eq_dec (refs g) 0) as [Hr|Hr].
  - destruct (pa_threaded_mainloop_new pa) as [h'|] eqn:Hn.
    + destruct (Z_lt_le_dec (pa_threaded_mainloop_start pa) 0) as [Hs|Hs].
      * rewrite (init_no_holder_start_fails pa g h' Hr Hn Hs) in H.
        inversion H; subst. repeat split; repeat constructor.
      * rewrite (init_no_holder_starts pa g h' Hr Hn Hs) in H.
        inversion H; subst. repeat split; repeat constructor.
    + rewrite (init_no_holder_new_fails pa g Hr Hn) in H. discriminate.
  - destruct (Z_lt_le_dec (refs g) UINT_MAX) as [Hm|Hm].
    + rewrite (init_holders_below_max pa g Hr Hm) in H. discriminate.
    + destruct (vlc_pa_mainloop g) as [h'|] eqn:Hp.
      * rewrite (init_holders_not_below_max pa g h' Hr Hm Hp) in H.
        inversion H; subst. repeat split; repeat constructor.
      * exfalso. revert H. destruct g as [m r].
        cbn [refs vlc_pa_mainloop] in *. subst m.
        apply Z.eqb_neq in Hr. apply Z.ltb_ge in Hm.
        run. rewrite Hr, Hm. cbn. discriminate.
Qed.

Lemma each_after_no_setup (t before : list event) :
  Forall (fun e => is_context_setup e = false) t ->
  each_after connect_discipline before t = true.
Proof.
  intros H. revert before.
  induction H as [|e t He _ IH]; intros before; [reflexivity|].
  cbn [each_after]. unfold connect_discipline at 1. rewrite He, IH.
  reflexivity.
Qed.

Lemma connect_discipline_holds (pa : libpulse) (g g1 : globals)
    (h : pa_threaded_mainloop) (c : pa_context) (t1 : list event) :
  vlc_pa_mainloop_init pa g = (Ret (Some h), g1, t1) ->
  each_after connect_discipline []
    (t1 ++ connect_setup pa h c
     ++ polling (Some h) (Some c) (pa_context_get_state pa)
          (states_after_wait pa)
     ++ [Ev_mainloop_unlock (Some h)]) = true.
Proof.
  intros Hi.
  destruct (init_pointer_events pa g g1 h t1 Hi) as [Hall [Hc [Hm Hd]]].
  rewrite !each_after_app. cbn [app].
  rewrite !andb_true_iff. split; [|split; [|split]].
  - apply each_after_no_setup. eapply Forall_impl; [|exact Hall].
    intros [] ?; (discriminate || reflexivity).
  - unfold connect_setup. cbn [each_after]. unfold connect_discipline.
    rewrite <- ?app_assoc. cbn [app].
    rewrite ?mutex_held_app, ?loop_lock_depth_app, ?count_app, Hm, Hd, Hc.
    reflexivity.
  - apply each_after_no_setup.
    eapply Forall_impl;
      [|apply (polling_events (Some h) (Some c) (states_after_wait pa)
                 (pa_context_get_state pa))].
    intros [] ?; (discriminate || reflexivity).
  - reflexivity.
Qed.

(** What a call of [vlc_pa_connect] that returns a context has done: its
    call of [vlc_pa_mainloop_init] returned a pointer; after it, with the
    loop's lock held, the context was created from the loop's API with the
    inherited user-agent string, the state callback set and the connection
    asked for; the state was polled until it read Ready, the loop unlocked,
    and the context returned without dropping its reference and without
    a decrement of the count. *)
Theorem vlc_pa_connect_success (pa : libpulse) (g g' : globals)
    (c : pa_context) (t : list event) :
  vlc_pa_connect pa g = (Ret (Some c), g', t) ->
  exists h t1,
    vlc_pa_mainloop_init pa g = (Ret (Some h), g', t1)
    /\ pa_context_new pa = Some c
    /\ t = t1
           ++ [Ev_var_InheritString "user-agent" (var_InheritString pa);
               Ev_mainloop_lock (Some h);
               Ev_mainloop_get_api (Some h);
               Ev_context_new (Some h) (var_InheritString pa) (Some c);
               Ev_free (var_InheritString pa);
               Ev_context_set_state_callback (Some c) (Some h);
               Ev_context_connect (Some c) (pa_context_connect pa)]
           ++ polling (Some h) (Some c) (pa_context_get_state pa)
                (states_after_wait pa)
           ++ [Ev_mainloop_unlock (Some h)]
    /\ final_state (pa_context_get_state pa) (states_after_wait pa)
       = Some PA_CONTEXT_READY
    /\ (exists tp,
           polling (Some h) (Some c) (pa_context_get_state pa)
             (states_after_wait pa)
           = tp ++ [Ev_context_get_state (Some c) PA_CONTEXT_READY])
    /\ (forall pre e post, t = pre ++ e :: post ->
          is_context_setup e = true ->
          loop_lock_depth pre = 1%nat
          /\ mutex_held pre = false
          /\ count is_mutex_op pre = 2%nat)
    /\ count is_context_unref t = 0%nat
    /\ count is_refs_decr t = 0%nat.
Proof.
  intros H.
  destruct (vlc_pa_mainloop_init pa g) as [[o g1] t1] eqn:Hi.
  destruct o as [[h|]| |].
  2: { rewrite (vlc_pa_connect_no_loop pa g g1 t1 Hi) in H. discriminate. }
  2: { unfold vlc_pa_connect in H.
       rewrite (bind_abort_step _ _ _ _ _ Hi) in H. discriminate. }
  2: { unfold vlc_pa_connect in H.
       rewrite (bind_block_step _ _ _ _ _ Hi) in H. discriminate. }
  destruct (pa_context_new pa) as [c'|] eqn:Hc.
  2: { rewrite (vlc_pa_connect_no_context pa g g1 h t1 Hi Hc) in H.
       inversion H as [[Ho Hg Ht]].
       exfalso. exact (vlc_pa_connect_fail_outcome _ _ _ Ho). }
  destruct (Z_lt_le_dec (pa_context_connect pa) 0) as [Hrc|Hrc].
  { rewrite (vlc_pa_connect_refused pa g g1 h c' t1 Hi Hc Hrc) in H.
    inversion H as [[Ho Hg Ht]].
    exfalso. exact (vlc_pa_connect_fail_outcome _ _ _ Ho). }
  destruct (final_state_cases (pa_context_get_state pa)
              (states_after_wait pa)) as [Hf|[Hf|[Hf|Hf]]].
  - rewrite (vlc_pa_connect_ready pa g g1 h c' t1 Hi Hc Hrc Hf) in H.
    inversion H; subst c' g' t. clear H.
    pose proof (polling_events (Some h) (Some c) (states_after_wait pa)
                  (pa_context_get_state pa)) as Hp.
    destruct (init_pointer_events pa g g1 h t1 Hi) as [Hall _].
    assert (Hev : forall p, (forall e, is_init_event e = true -> p e = false) ->
                  (forall e, is_polling_event e = true -> p e = false) ->
                  p (Ev_mainloop_unlock (Some h)) = false ->
                  (forall e, In e (connect_setup pa h c) -> p e = false) ->
                  count p (t1 ++ connect_setup pa h c
                           ++ polling (Some h) (Some c)
                                (pa_context_get_state pa)
                                (states_after_wait pa)
                           ++ [Ev_mainloop_unlock (Some h)]) = 0%nat).
    { intros p Hp1 Hp2 Hp3 Hp4. rewrite !count_app.
      rewrite (count_polling p _ Hp2 Hp).
      assert (Hz : count p t1 = 0%nat).
      { clear -Hall Hp1. induction Hall as [|e l He _ IH]; [reflexivity|].
        unfold count in *. cbn [filter]. rewrite (Hp1 e He). exact IH. }
      assert (Hs : count p (connect_setup pa h c) = 0%nat).
      { unfold count. clear -Hp4.
        induction (connect_setup pa h c) as [|e l IH]; [reflexivity|].
        cbn [filter]. rewrite (Hp4 e (or_introl eq_refl)).
        apply IH. intros e' He'. apply Hp4. right. exact He'. }
      rewrite Hz, Hs. unfold count. cbn [filter]. rewrite Hp3. reflexivity. }
    exists h, t1.
    split; [reflexivity|]. split; [reflexivity|]. split; [reflexivity|].
    split; [exact Hf|]. split; [apply polling_last; exact Hf|].
    split; [|split].
    + intros pre e post Ht He.
      pose proof (each_after_split connect_discipline pre _ [] e post
                    (connect_discipline_holds pa g g1 h c t1 Hi) Ht) as Hok.
      cbn [app] in Hok. unfold connect_discipline in Hok.
      rewrite He in Hok. cbn [implb] in Hok.
      rewrite !andb_true_iff in Hok. destruct Hok as [[Ha Hb] Hd].
      apply Nat.eqb_eq in Ha, Hd. apply negb_true_iff in Hb. auto.
    + apply Hev.
      * intros [] ?; (discriminate || reflexivity).
      * intros [] ?; (discriminate || reflexivity).
      * reflexivity.
      * intros e He. cbn in He.
        repeat (destruct He as [<-|He]; [reflexivity|]). destruct He.
    + apply Hev.
      * intros [] ?; (discriminate || reflexivity).
      * intros [] ?; (discriminate || reflexivity).
      * reflexivity.
      * intros e He. cbn in He.
        repeat (destruct He as [<-|He]; [reflexivity|]). destruct He.
  - rewrite (vlc_pa_connect_terminal pa g g1 h c' t1 Hi Hc Hrc
               (or_introl Hf)) in H.
    inversion H as [[Ho Hg Ht]].
    exfalso. exact (vlc_pa_connect_fail_outcome _ _ _ Ho).
  - rewrite (vlc_pa_connect_terminal pa g g1 h c' t1 Hi Hc Hrc
               (or_intror Hf)) in H.
    inversion H as [[Ho Hg Ht]].
    exfalso. exact (vlc_pa_connect_fail_outcome _ _ _ Ho).
  - rewrite (vlc_pa_connect_blocked pa g g1 h c' t1 Hi Hc Hrc Hf) in H.
    discriminate.
Qed.

Lemma vlc_pa_connect_success_witness :
  final_state (pa_context_get_state pa_accepts) (states_after_wait pa_accepts)
  = Some PA_CONTEXT_READY
  /\ count is_context_unref (events_of (vlc_pa_connect pa_accepts initial))
     = 0%nat
  /\ pa_context_new pa_accepts = Some 2%nat.
Proof.
  destruct (vlc_pa_connect_success pa_accepts initial
              (mkGlobals (Some 1%nat) 1) 2%nat
              (events_of (vlc_pa_connect pa_accepts initial)))
    as [h [t1 [_ [Hc [_ [Hf [_ [_ [Hu _]]]]]]]]].
  - reflexivity.
  - split; [exact Hf|]. split; [exact Hu|exact Hc].
Defined.

(** C10: the [return] expressions of [context_wait] have the values -1
    (the state read is Failed or Terminated) and 0 (the state read is
    Ready); converted to the declared [bool] they are [true] and [false].
    So in [vlc_pa_connect], once the connection request was accepted, the
    test [pa_context_connect (...) < 0 || context_wait (...)] sends the
    Failed and Terminated outcomes to the failure path, which logs the
    error, and the Ready outcome to the return of the context. *)
Theorem context_wait_bool (m : ptr pa_threaded_mainloop)
    (c : ptr pa_context) (pa : libpulse) (g : globals) :
  (final_state (pa_context_get_state pa) (states_after_wait pa)
   = Some PA_CONTEXT_READY ->
   outcome_of (context_wait_value m c (pa_context_get_state pa)
                 (states_after_wait pa) g) = Ret 0
   /\ outcome_of (context_wait m c pa g) = Ret false)
  /\ (final_state (pa_context_get_state pa) (states_after_wait pa)
      = Some PA_CONTEXT_FAILED
      \/ final_state (pa_context_get_state pa) (states_after_wait pa)
         = Some PA_CONTEXT_TERMINATED ->
      outcome_of (context_wait_value m c (pa_context_get_state pa)
                    (states_after_wait pa) g) = Ret (-1)
      /\ outcome_of (context_wait m c pa g) = Ret true)
  /\ (forall b, outcome_of (context_wait m c pa g) = Ret b ->
        (b = false <->
         final_state (pa_context_get_state pa) (states_after_wait pa)
         = Some PA_CONTEXT_READY)
        /\ (b = true <->
            final_state (pa_context_get_state pa) (states_after_wait pa)
            = Some PA_CONTEXT_FAILED
            \/ final_state (pa_context_get_state pa) (states_after_wait pa)
               = Some PA_CONTEXT_TERMINATED))
  /\ (forall h cx g1 t1,
        vlc_pa_mainloop_init pa g = (Ret (Some h), g1, t1) ->
        pa_context_new pa = Some cx ->
        0 <= pa_context_connect pa ->
        (final_state (pa_context_get_state pa) (states_after_wait pa)
         = Some PA_CONTEXT_READY ->
         outcome_of (vlc_pa_connect pa g) = Ret (Some cx))
        /\ (final_state (pa_context_get_state pa) (states_after_wait pa)
            = Some PA_CONTEXT_FAILED
            \/ final_state (pa_context_get_state pa) (states_after_wait pa)
               = Some PA_CONTEXT_TERMINATED ->
            outcome_of (vlc_pa_connect pa g) <> Ret (Some cx)
            /\ In (Ev_msg_Err ("PulseAudio server connection failure: "
                               ++ pa_strerror pa (pa_context_errno pa)))
                  (events_of (vlc_pa_connect pa g)))).
Proof.
  assert (Hw : context_wait m c pa g
               = (match final_state (pa_context_get_state pa)
                          (states_after_wait pa) with
                  | Some PA_CONTEXT_READY => Ret false
                  | Some PA_CONTEXT_FAILED
                  | Some PA_CONTEXT_TERMINATED => Ret true
                  | _ => Block
                  end, g,
                  polling m c (pa_context_get_state pa)
                    (states_after_wait pa))).
  { unfold context_wait, bind, ret.
    rewrite context_wait_value_spec.
    destruct (final_state_cases (pa_context_get_state pa)
                (states_after_wait pa)) as [Hf|[Hf|[Hf|Hf]]];
      rewrite Hf; cbn; rewrite ?app_nil_r; reflexivity. }
  split; [|split; [|split]].
  - intros Hf. rewrite Hw, context_wait_value_spec, Hf. split; reflexivity.
  - intros Hf. rewrite Hw, context_wait_value_spec.
    destruct Hf as [-> | ->]; split; reflexivity.
  - intros b. rewrite Hw. cbn [outcome_of fst].
    destruct (final_state_cases (pa_context_get_state pa)
                (states_after_wait pa)) as [Hf|[Hf|[Hf|Hf]]];
      rewrite Hf; intros Hb; inversion Hb; subst;
      (split; split; intros Hx;
       try discriminate; try reflexivity;
       try (destruct Hx; discriminate); auto).
  - intros h cx g1 t1 Hi Hc Hrc. split.
    + intros Hf. rewrite (vlc_pa_connect_ready pa g g1 h cx t1 Hi Hc Hrc Hf).
      reflexivity.
    + intros Hf.
      rewrite (vlc_pa_connect_terminal pa g g1 h cx t1 Hi Hc Hrc Hf).
      cbn [outcome_of events_of fst snd]. split.
      * apply vlc_pa_connect_fail_outcome.
      * apply in_or_app. right. apply in_or_app. right.
        apply in_or_app. right. apply in_or_app. left.
        left. reflexivity.
Qed.

Lemma context_wait_bool_witness :
  outcome_of (context_wait (Some 1%nat) (Some 2%nat) pa_accepts initial)
  = Ret false
  /\ outcome_of (context_wait (Some 1%nat) (Some 2%nat) pa_refuses initial)
     = Ret true
  /\ outcome_of (vlc_pa_connect pa_accepts initial) = Ret (Some 2%nat)
  /\ outcome_of (vlc_pa_connect pa_refuses initial) <> Ret (Some 2%nat).
Proof.
  destruct (context_wait_bool (Some 1%nat) (Some 2%nat) pa_accepts initial)
    as [Ha [_ [_ Hca]]].
  destruct (context_wait_bool (Some 1%nat) (Some 2%nat) pa_refuses initial)
    as [_ [Hr [_ Hcr]]].
  split; [|split; [|split]].
  - apply Ha. reflexivity.
  - apply Hr. left. reflexivity.
  - apply (Hca 1%nat 2%nat (mkGlobals (Some 1%nat) 1)
             [Ev_vlc_mutex_lock; Ev_mainloop_new (Some 1%nat);
              Ev_mainloop_start (Some 1%nat) 0; Ev_refs_incr 1;
              Ev_vlc_mutex_unlock]);
      [reflexivity | reflexivity | vm_compute; discriminate | reflexivity].
  - apply (Hcr 1%nat 2%nat (mkGlobals (Some 1%nat) 1)
             [Ev_vlc_mutex_lock; Ev_mainloop_new (Some 1%nat);
              Ev_mainloop_start (Some 1%nat) 0; Ev_refs_incr 1;
              Ev_vlc_mutex_unlock]);
      [reflexivity | reflexivity | vm_compute; discriminate
      | left; reflexivity].
Defined.

(** *** Presentation timestamps *)

(** C8: whenever the peek and the latency query of a data-ready
    notification succeed, the timestamp published as the clock reference,
    and carried as presentation and decode timestamp by the block that is
    sent, is the captured wall time minus the latency when the latency is
    in the past, and plus the latency when it is yet to play; 100000 and
    2000 give 98000 and 102000. *)
Theorem presentation_timestamp_direction
    (s : FrameDelivery.stream) (data : list Byte.byte)
    (capture l : Z) (d : FrameDelivery.direction) (alloc : bool) :
  FrameDelivery.clock_references
    (snd (FrameDelivery.data_ready s
            (FrameDelivery.mkNotification (Some data) capture
               (Some (l, d)) alloc)))
  = [match d with
     | FrameDelivery.Past => capture - l
     | FrameDelivery.Future => capture + l
     end]
  /\ Forall (fun b =>
               FrameDelivery.pts b
               = match d with
                 | FrameDelivery.Past => capture - l
                 | FrameDelivery.Future => capture + l
                 end
               /\ FrameDelivery.dts b = FrameDelivery.pts b)
       (FrameDelivery.blocks_sent
          (snd (FrameDelivery.data_ready s
                  (FrameDelivery.mkNotification (Some data) capture
                     (Some (l, d)) alloc))))
  /\ FrameDelivery.presentation_timestamp 100000 2000 FrameDelivery.Past
     = 98000
  /\ FrameDelivery.presentation_timestamp 100000 2000 FrameDelivery.Future
     = 102000.
Proof.
  unfold FrameDelivery.data_ready. cbn [FrameDelivery.peek
    FrameDelivery.latency FrameDelivery.capture_time FrameDelivery.alloc].
  destruct s as [sink pd fs]. cbn [FrameDelivery.sink].
  split; [|split; [|split]]; try reflexivity.
  - destruct sink, alloc, d; reflexivity.
  - destruct sink, alloc, d; cbn; repeat constructor.
Qed.

(** ** Further properties of the main loop handle *)

Lemma init_holders_no_pointer (pa : libpulse) (g : globals) :
  refs g <> 0 ->
  UINT_MAX <= refs g ->
  vlc_pa_mainloop g = NULL ->
  vlc_pa_mainloop_init pa g = (Abort, g, [Ev_vlc_mutex_lock]).
Proof.
  intros Hr Hm Hp. destruct g as [m r].
  cbn [refs vlc_pa_mainloop] in *. subst m.
  apply Z.eqb_neq in Hr. apply Z.ltb_ge in Hm.
  run. rewrite Hr, Hm. reflexivity.
Qed.

Lemma init_cases (pa : libpulse) (g : globals) :
  init_branch pa g (vlc_pa_mainloop_init pa g).
Proof.
  destruct (Z.eq_dec (refs g) 0) as [Hr|Hr].
  - destruct (pa_threaded_mainloop_new pa) as [h|] eqn:Hn.
    + destruct (Z_lt_le_dec (pa_threaded_mainloop_start pa) 0) as [Hs|Hs].
      * rewrite (init_no_holder_start_fails pa g h Hr Hn Hs).
        now apply Init_start_fails.
      * rewrite (init_no_holder_starts pa g h Hr Hn Hs).
        now apply Init_starts.
    + rewrite (init_no_holder_new_fails pa g Hr Hn).
      now apply Init_new_fails.
  - destruct (Z_lt_le_dec (refs g) UINT_MAX) as [Hm|Hm].
    + rewrite (init_holders_below_max pa g Hr Hm). now apply Init_refused.
    + destruct (vlc_pa_mainloop g) as [h|] eqn:Hp.
      * rewrite (init_holders_not_below_max pa g h Hr Hm Hp).
        now apply Init_shares.
      * rewrite (init_holders_no_pointer pa g Hr Hm Hp).
        now apply Init_asserts.
Qed.

(** X1: a call of [vlc_pa_mainloop_init] that returns NULL has changed
    neither global, has started no thread and has not counted a
    reference. *)
Theorem init_null_changes_nothing (pa : libpulse) (g : globals) :
  outcome_of (vlc_pa_mainloop_init pa g) = Ret NULL ->
  globals_of (vlc_pa_mainloop_init pa g) = g
  /\ count is_start (events_of (vlc_pa_mainloop_init pa g)) = 0%nat
  /\ count is_refs_incr (events_of (vlc_pa_mainloop_init pa g)) = 0%nat.
Proof.
  destruct (init_cases pa g); cbn [outcome_of globals_of events_of fst snd];
    intros Ho; try discriminate; repeat split.
Qed.

Lemma init_null_changes_nothing_witness :
  globals_of (vlc_pa_mainloop_init pa_no_loop initial) = initial
  /\ count is_start (events_of (vlc_pa_mainloop_init pa_no_loop initial))
     = 0%nat.
Proof.
  destruct (init_null_changes_nothing pa_no_loop initial) as [H1 [H2 _]].
  - reflexivity.
  - split; [exact H1 | exact H2].
Defined.

(** X2: [vlc_pa_mainloop_init] never blocks, and whenever it returns it
    has locked the static mutex once and unlocked it once, the lock being
    its first and the unlock its last action. *)
Theorem init_returns_with_mutex_released (pa : libpulse) (g : globals) :
  outcome_of (vlc_pa_mainloop_init pa g) <> Block
  /\ (forall m, outcome_of (vlc_pa_mainloop_init pa g) = Ret m ->
        mutex_held (events_of (vlc_pa_mainloop_init pa g)) = false
        /\ count is_mutex_op (events_of (vlc_pa_mainloop_init pa g)) = 2%nat
        /\ exists t,
             events_of (vlc_pa_mainloop_init pa g)
             = Ev_vlc_mutex_lock :: t ++ [Ev_vlc_mutex_unlock]
             /\ count is_mutex_op t = 0%nat).
Proof.
  destruct (init_cases pa g); cbn [outcome_of globals_of events_of fst snd];
    (split; [discriminate|]); intros m Ho; try discriminate;
    (split; [reflexivity|]); (split; [reflexivity|]).
  - exists [Ev_mainloop_new NULL]. split; reflexivity.
  - eexists [_; _; _]. split; reflexivity.
  - eexists [_; _; _]. split; reflexivity.
  - exists []. split; reflexivity.
  - eexists [_]. split; reflexivity.
Qed.

Lemma init_returns_with_mutex_released_witness :
  mutex_held (events_of (vlc_pa_mainloop_init pa_accepts initial)) = false
  /\ count is_mutex_op (events_of (vlc_pa_mainloop_init pa_accepts initial))
     = 2%nat.
Proof.
  destruct (init_returns_with_mutex_released pa_accepts initial) as [_ H].
  destruct (H (Some 1%nat)) as [H1 [H2 _]].
  - reflexivity.
  - split; [exact H1 | exact H2].
Defined.

(** X3: [vlc_pa_mainloop_init] changes the count only by adding one (in
    unsigned arithmetic), and only when it returns the pointer that
    [vlc_pa_mainloop] then holds; it overwrites [vlc_pa_mainloop] only
    with a loop it has created and started, when there was no holder. *)
Theorem init_effect_on_globals (pa : libpulse) (g : globals) :
  (refs (globals_of (vlc_pa_mainloop_init pa g)) = refs g
   \/ (refs (globals_of (vlc_pa_mainloop_init pa g))
       = to_unsigned (refs g + 1)
       /\ exists h,
            outcome_of (vlc_pa_mainloop_init pa g) = Ret (Some h)
            /\ vlc_pa_mainloop (globals_of (vlc_pa_mainloop_init pa g))
               = Some h))
  /\ (vlc_pa_mainloop (globals_of (vlc_pa_mainloop_init pa g))
      <> vlc_pa_mainloop g ->
      refs g = 0
      /\ vlc_pa_mainloop (globals_of (vlc_pa_mainloop_init pa g))
         = pa_threaded_mainloop_new pa
      /\ count is_started (events_of (vlc_pa_mainloop_init pa g)) = 1%nat).
Proof.
  destruct (init_cases pa g) as [Hr Hn|h Hr Hn Hs|h Hr Hn Hs|Hr Hm
                                |h Hr Hm Hp|Hr Hm Hp];
    cbn [outcome_of globals_of events_of fst snd refs vlc_pa_mainloop].
  - split; [now left|]. intros H. now elim H.
  - split; [now left|]. intros H. now elim H.
  - split.
    + right. rewrite Hr. split; [reflexivity|]. exists h. auto.
    + intros _. split; [exact Hr|]. split; [now rewrite Hn|].
      unfold count. cbn [filter is_started].
      apply Z.leb_le in Hs. rewrite Hs. reflexivity.
  - split; [now left|]. intros H. now elim H.
  - split.
    + right. split; [reflexivity|]. exists h. auto.
    + intros H. rewrite Hp in H. now elim H.
  - split; [now left|]. intros H. now elim H.
Qed.

Lemma init_effect_on_globals_witness :
  refs (globals_of (vlc_pa_mainloop_init pa_accepts initial)) = 1
  /\ count is_started (events_of (vlc_pa_mainloop_init pa_accepts initial))
     = 1%nat.
Proof.
  destruct (init_effect_on_globals pa_accepts initial) as [H1 H2].
  split.
  - destruct H1 as [H1|[H1 _]]; [discriminate H1 | exact H1].
  - apply H2. discriminate.
Defined.

(** X4: [vlc_pa_mainloop_deinit] fails an assertion exactly when the count
    is not positive or its argument is not the pointer in
    [vlc_pa_mainloop]; it has then changed nothing and stopped nothing, and
    the static mutex is still locked. *)
Theorem deinit_assertion_failure (m : ptr pa_threaded_mainloop)
    (g : globals) :
  (outcome_of (vlc_pa_mainloop_deinit m g) = Abort
   <-> ~ (0 < refs g /\ m = vlc_pa_mainloop g))
  /\ (outcome_of (vlc_pa_mainloop_deinit m g) = Abort ->
      vlc_pa_mainloop_deinit m g = (Abort, g, [Ev_vlc_mutex_lock])
      /\ mutex_held (events_of (vlc_pa_mainloop_deinit m g)) = true)
  /\ outcome_of (vlc_pa_mainloop_deinit m g) <> Block.
Proof.
  split; [apply deinit_aborts_iff|].
  destruct (deinit_cases m g) as [[_ ->]|[_ [_ ->]]];
    cbn [outcome_of events_of fst snd].
  - split; [|discriminate]. intros _. split; reflexivity.
  - split; discriminate.
Qed.

Lemma deinit_assertion_failure_witness :
  vlc_pa_mainloop_deinit (Some 1%nat) initial
  = (Abort, initial, [Ev_vlc_mutex_lock])
  /\ outcome_of (vlc_pa_mainloop_deinit (Some 2%nat)
                   (mkGlobals (Some 1%nat) 1)) = Abort.
Proof.
  split.
  - destruct (deinit_assertion_failure (Some 1%nat) initial)
      as [_ [H _]].
    apply H. reflexivity.
  - destruct (deinit_assertion_failure (Some 2%nat)
                (mkGlobals (Some 1%nat) 1)) as [[_ H] _].
    apply H. intros [_ Heq]. discriminate Heq.
Defined.

(** X5: [vlc_pa_mainloop_deinit] never writes [vlc_pa_mainloop]: after the
    last holder's release the variable still holds the pointer to the loop
    that was stopped and freed, and that is the loop a later [vlc_pa_lock]
    locks. *)
Theorem deinit_leaves_pointer (m : ptr pa_threaded_mainloop) (g : globals) :
  vlc_pa_mainloop (globals_of (vlc_pa_mainloop_deinit m g))
  = vlc_pa_mainloop g
  /\ (forall h, vlc_pa_mainloop g = Some h -> m = Some h -> refs g = 1 ->
        (vlc_pa_mainloop_deinit m ;; vlc_pa_lock) g
        = (Ret tt, mkGlobals (Some h) 0,
           [Ev_vlc_mutex_lock; Ev_refs_decr 0; Ev_vlc_mutex_unlock;
            Ev_mainloop_stop (Some h); Ev_mainloop_free (Some h);
            Ev_mainloop_lock (Some h)])).
Proof.
  split.
  - destruct (deinit_cases m g) as [[_ ->]|[_ [_ ->]]]; reflexivity.
  - intros h Hp -> Hr.
    assert (Hpos : 0 < refs g) by lia.
    assert (Heq : ptr_eqb (Some h) (vlc_pa_mainloop g) = true)
      by (apply ptr_eqb_eq; auto).
    assert (Hd : to_unsigned (refs g - 1) <= 0)
      by (rewrite Hr; cbn; lia).
    rewrite (bind_ret_step _ _ _ _ _ _
               (deinit_last_holder (Some h) g Hpos Heq Hd)).
    rewrite Hp, Hr. reflexivity.
Qed.

Lemma deinit_leaves_pointer_witness :
  (vlc_pa_mainloop_deinit (Some 1%nat) ;; vlc_pa_lock)
    (mkGlobals (Some 1%nat) 1)
  = (Ret tt, mkGlobals (Some 1%nat) 0,
     [Ev_vlc_mutex_lock; Ev_refs_decr 0; Ev_vlc_mutex_unlock;
      Ev_mainloop_stop (Some 1%nat); Ev_mainloop_free (Some 1%nat);
      Ev_mainloop_lock (Some 1%nat)]).
Proof.
  destruct (deinit_leaves_pointer (Some 1%nat) (mkGlobals (Some 1%nat) 1))
    as [_ H].
  apply (H 1%nat); reflexivity.
Defined.

(** *** Any sequence of calls from the initial state *)

(** One call keeps the process in a state with at most one holder; the
    threads started so far, less those stopped, are the holders; and so are
    the loop objects created, less those freed. *)
Lemma run_call_step (c : call) (g : globals) :
  at_most_one_holder g ->
  at_most_one_holder (globals_of (run_call c g))
  /\ outcome_of (run_call c g) <> Block
  /\ (count is_started (events_of (run_call c g)) + Z.to_nat (refs g)
      = count is_stop_event (events_of (run_call c g))
        + Z.to_nat (refs (globals_of (run_call c g))))%nat
  /\ (count is_created (events_of (run_call c g)) + Z.to_nat (refs g)
      = count is_free_event (events_of (run_call c g))
        + Z.to_nat (refs (globals_of (run_call c g))))%nat
  /\ (forall pa, c = Call_init pa -> outcome_of (run_call c g) <> Abort).
Proof.
  intros Hinv. destruct c as [pa|m]; cbn [run_call].
  - destruct (init_cases pa g) as [Hr Hn|h Hr Hn Hs|h Hr Hn Hs|Hr Hm
                                  |h Hr Hm Hp|Hr Hm Hp];
      cbn [outcome_of globals_of events_of fst snd].
    + repeat split; try discriminate; auto.
    + repeat split; try discriminate; auto.
      unfold count. cbn [filter is_started is_stop_event].
      apply Z.leb_gt in Hs. rewrite Hs. reflexivity.
    + split; [right; split; [reflexivity|discriminate]|].
      repeat split; try discriminate.
      * unfold count. cbn [filter is_started is_stop_event refs].
        apply Z.leb_le in Hs. rewrite Hs, Hr. reflexivity.
      * rewrite Hr. reflexivity.
    + repeat split; try discriminate; auto.
    + exfalso. destruct Hinv as [H0|[H1 _]]; [congruence|].
      rewrite H1 in Hm. vm_compute in Hm. apply Hm. reflexivity.
    + exfalso. destruct Hinv as [H0|[H1 _]]; [congruence|].
      rewrite H1 in Hm. vm_compute in Hm. apply Hm. reflexivity.
  - destruct (deinit_cases m g) as [[_ He]|[Hpos [Hm He]]].
    + rewrite (bind_abort_step _ _ _ _ _ He).
      cbn [outcome_of globals_of events_of fst snd].
      repeat split; try discriminate; auto.
    + rewrite (bind_ret_step _ _ _ _ _ _ He).
      cbn [outcome_of globals_of events_of fst snd ret refs].
      destruct Hinv as [H0|[H1 Hp]]; [lia|].
      rewrite H1. change (to_unsigned (1 - 1)) with 0.
      destruct m as [h|]; [|exfalso; apply Hp; symmetry; exact Hm].
      cbn [Z.ltb orb is_NULL Z.compare app].
      repeat split; try discriminate. left. reflexivity.
Qed.

Lemma run_all_step (cs : list call) :
  forall g, at_most_one_holder g ->
    at_most_one_holder (globals_of (run_all cs g))
    /\ outcome_of (run_all cs g) <> Block
    /\ (count is_started (events_of (run_all cs g)) + Z.to_nat (refs g)
        = count is_stop_event (events_of (run_all cs g))
          + Z.to_nat (refs (globals_of (run_all cs g))))%nat
    /\ (count is_created (events_of (run_all cs g)) + Z.to_nat (refs g)
        = count is_free_event (events_of (run_all cs g))
          + Z.to_nat (refs (globals_of (run_all cs g))))%nat.
Proof.
  induction cs as [|c cs IH]; intros g Hinv.
  - cbn. repeat split; auto. discriminate.
  - cbn [run_all].
    destruct (run_call_step c g Hinv) as [H1 [H2 [H3 [H4 _]]]].
    destruct (run_call c g) as [[o g1] t1] eqn:Hc.
    cbn [outcome_of globals_of events_of fst snd] in H1, H2, H3, H4.
    destruct o as [a| |].
    + rewrite (bind_ret_step _ _ _ _ _ _ Hc).
      cbn [outcome_of globals_of events_of fst snd].
      destruct (IH g1 H1) as [I1 [I2 [I3 I4]]].
      split; [exact I1|]. split; [exact I2|].
      rewrite !count_app. split; lia.
    + rewrite (bind_abort_step _ _ _ _ _ Hc).
      cbn [outcome_of globals_of events_of fst snd].
      split; [exact H1|]. split; [discriminate|]. split; assumption.
    + now elim H2.
Qed.

Lemma initial_at_most_one_holder : at_most_one_holder initial.
Proof. left. reflexivity. Qed.

(** X6: whatever sequence of calls of [vlc_pa_mainloop_init] and
    [vlc_pa_mainloop_deinit] a process makes from its initial state, with
    whatever arguments and library answers, the count is 0 or 1, a count
    of 1 comes with a non-null [vlc_pa_mainloop], no call blocks, and
    [assert (mainloop != NULL)] of [vlc_pa_mainloop_init] cannot fail in
    the state reached. *)
Theorem calls_keep_at_most_one_holder (cs : list call) (pa : libpulse) :
  (refs (globals_of (run_all cs initial)) = 0
   \/ (refs (globals_of (run_all cs initial)) = 1
       /\ vlc_pa_mainloop (globals_of (run_all cs initial)) <> NULL))
  /\ outcome_of (run_all cs initial) <> Block
  /\ outcome_of (vlc_pa_mainloop_init pa (globals_of (run_all cs initial)))
     <> Abort.
Proof.
  destruct (run_all_step cs initial initial_at_most_one_holder)
    as [H1 [H2 _]].
  split; [exact H1|]. split; [exact H2|].
  destruct (run_call_step (Call_init pa) _ H1) as [_ [_ [_ [_ H]]]].
  apply (H pa). reflexivity.
Qed.

(** X7: in any sequence of calls from the initial state, the threads
    started successfully, less the threads stopped, are the references
    counted at the end: no thread is stopped that was not started, none is
    stopped twice, and with the count at 0 every started thread has been
    stopped. *)
Theorem threads_started_and_stopped (cs : list call) :
  (count is_started (events_of (run_all cs initial))
   = count is_stop_event (events_of (run_all cs initial))
     + Z.to_nat (refs (globals_of (run_all cs initial))))%nat
  /\ (count is_stop_event (events_of (run_all cs initial))
      <= count is_started (events_of (run_all cs initial)))%nat.
Proof.
  destruct (run_all_step cs initial initial_at_most_one_holder)
    as [_ [_ [H3 _]]].
  cbn [refs initial Z.to_nat] in H3. rewrite Nat.add_0_r in H3.
  split; [exact H3 | lia].
Qed.

(** X8: in any sequence of calls from the initial state, the loop objects
    that [pa_threaded_mainloop_new] created, less those freed, are the
    references counted at the end: a loop whose thread cannot be started
    is freed at once, no loop is freed twice, and with the count at 0
    every created loop has been freed. *)
Theorem loops_created_and_freed (cs : list call) :
  (count is_created (events_of (run_all cs initial))
   = count is_free_event (events_of (run_all cs initial))
     + Z.to_nat (refs (globals_of (run_all cs initial))))%nat
  /\ (count is_free_event (events_of (run_all cs initial))
      <= count is_created (events_of (run_all cs initial)))%nat.
Proof.
  destruct (run_all_step cs initial initial_at_most_one_holder)
    as [_ [_ [_ H4]]].
  cbn [refs initial Z.to_nat] in H4. rewrite Nat.add_0_r in H4.
  split; [exact H4 | lia].
Qed.

(** ** Further properties of the connection handshake *)

Lemma final_state_none_iff (later : list pa_context_state_t) :
  forall s, final_state s later = None
            <-> forallb is_transient (s :: later) = true.
Proof.
  induction later as [|s' later IH]; intros s.
  - destruct s; cbn; split; intros H; (discriminate || reflexivity).
  - destruct s; cbn [final_state forallb is_transient andb];
      try (split; intros H; discriminate); apply IH.
Qed.

Lemma final_state_app (l1 l2 : list pa_context_state_t) :
  forall s x, final_state s l1 = Some x -> final_state s (l1 ++ l2) = Some x.
Proof.
  induction l1 as [|s' l1 IH]; intros s x H.
  - destruct s; destruct l2; cbn in *; try discriminate; exact H.
  - destruct s; cbn [final_state app] in *; try exact H; now apply IH.
Qed.

Lemma polling_app (m : ptr pa_threaded_mainloop) (c : ptr pa_context)
    (l1 l2 : list pa_context_state_t) :
  forall s x, final_state s l1 = Some x ->
    polling m c s (l1 ++ l2) = polling m c s l1.
Proof.
  induction l1 as [|s' l1 IH]; intros s x H.
  - destruct s; destruct l2; cbn in H; try discriminate; reflexivity.
  - destruct s; cbn [final_state app polling] in *; try reflexivity;
      now rewrite (IH s' x H).
Qed.

(** X9: [context_state_cb] reads the state once and leaves the globals
    alone; it signals the loop passed as user data, once and without
    waiting for an acknowledgement, exactly for the states at which the
    polling of [context_wait] returns without a further wait, and it does
    not signal for the states at which [context_wait] goes on waiting. *)
Theorem context_state_cb_signals_when_wait_stops
    (c : ptr pa_context) (s : pa_context_state_t)
    (m : ptr pa_threaded_mainloop) (g g' : globals)
    (later : list pa_context_state_t) :
  context_state_cb c s m g
  = (Ret tt, g,
     Ev_context_get_state c s
     :: (if is_transient s then [] else [Ev_mainloop_signal m 0]))
  /\ (count is_signal (events_of (context_state_cb c s m g)) = 1%nat
      <-> count is_wait (events_of (context_wait_value m c s later g'))
          = 0%nat)
  /\ (count is_signal (events_of (context_state_cb c s m g)) = 0%nat
      <-> In (Ev_mainloop_wait m)
             (events_of (context_wait_value m c s later g'))).
Proof.
  rewrite context_wait_value_spec. cbn [events_of snd].
  split; [destruct s; reflexivity|].
  destruct s; destruct later as [|s' later];
    unfold count; cbn [context_state_cb bind emit ret events_of snd app
                       polling filter is_signal is_wait List.length];
    (split; split; intros H);
    try discriminate H; try reflexivity;
    try (right; left; reflexivity);
    try (destruct H as [H|H]; [discriminate H | destruct H]).
Qed.

Lemma context_state_cb_signals_when_wait_stops_witness :
  count is_signal
    (events_of (context_state_cb (Some 2%nat) PA_CONTEXT_READY (Some 1%nat)
                  initial)) = 1%nat
  /\ In (Ev_mainloop_wait (Some 1%nat))
        (events_of (context_wait_value (Some 1%nat) (Some 2%nat)
                      PA_CONTEXT_CONNECTING [PA_CONTEXT_READY] initial)).
Proof.
  split.
  - destruct (context_state_cb_signals_when_wait_stops
                (Some 2%nat) PA_CONTEXT_READY (Some 1%nat) initial initial [])
      as [_ [[_ H] _]].
    apply H. reflexivity.
  - destruct (context_state_cb_signals_when_wait_stops
                (Some 2%nat) PA_CONTEXT_CONNECTING (Some 1%nat) initial
                initial [PA_CONTEXT_READY]) as [_ [_ [H _]]].
    apply H. reflexivity.
Defined.

(** X10: [context_wait] never returns exactly when none of the states it
    is answered is Ready, Failed or Terminated; it never fails an
    assertion, changes no global, and does nothing but read the state and
    wait, reading the state once more than it waits when it returns. *)
Theorem context_wait_blocks_iff (m : ptr pa_threaded_mainloop)
    (c : ptr pa_context) (pa : libpulse) (g : globals) :
  (outcome_of (context_wait m c pa g) = Block
   <-> forallb is_transient
         (pa_context_get_state pa :: states_after_wait pa) = true)
  /\ outcome_of (context_wait m c pa g) <> Abort
  /\ globals_of (context_wait m c pa g) = g
  /\ Forall (fun e => is_polling_event e = true)
       (events_of (context_wait m c pa g))
  /\ (forall b, outcome_of (context_wait m c pa g) = Ret b ->
        count is_get_state (events_of (context_wait m c pa g))
        = S (count is_wait (events_of (context_wait m c pa g)))).
Proof.
  assert (Hw : context_wait m c pa g
               = (match final_state (pa_context_get_state pa)
                          (states_after_wait pa) with
                  | Some PA_CONTEXT_READY => Ret false
                  | Some PA_CONTEXT_FAILED
                  | Some PA_CONTEXT_TERMINATED => Ret true
                  | _ => Block
                  end, g,
                  polling m c (pa_context_get_state pa)
                    (states_after_wait pa))).
  { unfold context_wait, bind, ret.
    rewrite context_wait_value_spec.
    destruct (final_state_cases (pa_context_get_state pa)
                (states_after_wait pa)) as [Hf|[Hf|[Hf|Hf]]];
      rewrite Hf; cbn; rewrite ?app_nil_r; reflexivity. }
  rewrite Hw. cbn [outcome_of globals_of events_of fst snd].
  rewrite <- final_state_none_iff.
  split; [|split; [|split; [|split]]].
  - destruct (final_state_cases (pa_context_get_state pa)
                (states_after_wait pa)) as [Hf|[Hf|[Hf|Hf]]];
      rewrite Hf; split; intros H; (discriminate || reflexivity).
  - destruct (final_state_cases (pa_context_get_state pa)
                (states_after_wait pa)) as [Hf|[Hf|[Hf|Hf]]];
      rewrite Hf; discriminate.
  - reflexivity.
  - apply polling_events.
  - intros b Hb.
    assert (Hsome : final_state (pa_context_get_state pa)
                      (states_after_wait pa) <> None).
    { intros Hn. rewrite Hn in Hb. discriminate. }
    clear Hb Hw. revert Hsome.
    generalize (pa_context_get_state pa) as s.
    induction (states_after_wait pa) as [|s' later IH]; intros s Hs.
    + destruct s; cbn in Hs; try (now elim Hs); reflexivity.
    + destruct s; cbn [final_state polling] in *; try reflexivity;
        unfold count in *; cbn [filter is_get_state is_wait List.length];
        f_equal; apply IH; exact Hs.
Qed.

Lemma context_wait_blocks_iff_witness :
  outcome_of (context_wait (Some 1%nat) (Some 2%nat) pa_silent initial)
  = Block
  /\ count is_get_state
       (events_of (context_wait (Some 1%nat) (Some 2%nat) pa_accepts initial))
     = 4%nat.
Proof.
  split.
  - destruct (context_wait_blocks_iff (Some 1%nat) (Some 2%nat) pa_silent
                initial) as [[_ H] _].
    apply H. reflexivity.
  - destruct (context_wait_blocks_iff (Some 1%nat) (Some 2%nat) pa_accepts
                initial) as [_ [_ [_ [_ H]]]].
    rewrite (H false); reflexivity.
Defined.

(** X11: [context_wait] stops at the first Ready, Failed or Terminated
    state: whatever states would be answered after it are never read, so
    the result, the globals and the events are the same without them. *)
Theorem context_wait_stops_at_first (m : ptr pa_threaded_mainloop)
    (c : ptr pa_context) (s x : pa_context_state_t)
    (l1 l2 : list pa_context_state_t) (g : globals) :
  final_state s l1 = Some x ->
  context_wait_value m c s (l1 ++ l2) g = context_wait_value m c s l1 g
  /\ count is_get_state (events_of (context_wait_value m c s (l1 ++ l2) g))
     = S (count is_wait
            (events_of (context_wait_value m c s (l1 ++ l2) g)))
  /\ exists t,
       events_of (context_wait_value m c s (l1 ++ l2) g)
       = t ++ [Ev_context_get_state c x].
Proof.
  intros H. rewrite !context_wait_value_spec.
  rewrite (final_state_app l1 l2 s x H), (polling_app m c l1 l2 s x H), H.
  split; [reflexivity|]. cbn [events_of snd]. split.
  - clear l2. revert s H.
    induction l1 as [|s' l1 IH]; intros s H.
    + destruct s; cbn in H; try discriminate; reflexivity.
    + destruct s; cbn [final_state polling] in *; try reflexivity;
        unfold count in *; cbn [filter is_get_state is_wait List.length];
        f_equal; apply IH; exact H.
  - apply polling_last. exact H.
Qed.

Lemma context_wait_stops_at_first_witness :
  context_wait_value (Some 1%nat) (Some 2%nat) PA_CONTEXT_CONNECTING
    ([PA_CONTEXT_FAILED] ++ [PA_CONTEXT_READY]) initial
  = context_wait_value (Some 1%nat) (Some 2%nat) PA_CONTEXT_CONNECTING
      [PA_CONTEXT_FAILED] initial.
Proof.
  destruct (context_wait_stops_at_first (Some 1%nat) (Some 2%nat)
              PA_CONTEXT_CONNECTING PA_CONTEXT_FAILED
              [PA_CONTEXT_FAILED] [PA_CONTEXT_READY] initial) as [H _].
  - reflexivity.
  - exact H.
Defined.

(** *** Every way [vlc_pa_connect] ends *)

Lemma fold_loop_polling (t : list event) :
  Forall (fun e => is_polling_event e = true) t ->
  forall d, fold_left loop_lock_step t d = d.
Proof.
  induction 1 as [|e t He _ IH]; intros d; [reflexivity|].
  cbn [fold_left]. rewrite <- (IH d) at 2. f_equal.
  destruct e; try discriminate He; reflexivity.
Qed.

Lemma fold_mutex_polling (t : list event) :
  Forall (fun e => is_polling_event e = true) t ->
  forall b, fold_left mutex_step t b = b.
Proof.
  induction 1 as [|e t He _ IH]; intros b; [reflexivity|].
  cbn [fold_left]. rewrite <- (IH b) at 2. f_equal.
  destruct e; try discriminate He; reflexivity.
Qed.

(** The events of an acquisition that returns. *)
Lemma init_return_events (pa : libpulse) (g g1 : globals)
    (m : ptr pa_threaded_mainloop) (t1 : list event) :
  vlc_pa_mainloop_init pa g = (Ret m, g1, t1) ->
  mutex_held t1 = false /\ loop_lock_depth t1 = 0%nat.
Proof.
  intros H. destruct (init_cases pa g); inversion H; subst;
    split; reflexivity.
Qed.

(** The events of [vlc_pa_connect] from the label [fail], when it
    returns. *)
Lemma fail_return_events (m : ptr pa_threaded_mainloop) (g : globals)
    (x : ptr pa_context) :
  outcome_of (vlc_pa_connect_fail m g) = Ret x ->
  x = NULL
  /\ (forall d, fold_left loop_lock_step
                  (events_of (vlc_pa_connect_fail m g)) (S d) = d)
  /\ (forall b, fold_left mutex_step
                  (events_of (vlc_pa_connect_fail m g)) b = false).
Proof.
  rewrite vlc_pa_connect_fail_spec.
  cbn [outcome_of events_of fst snd].
  destruct (deinit_cases m g) as [[_ ->]|[_ [_ ->]]];
    cbn [outcome_of events_of fst snd]; intros H; [discriminate|].
  inversion H.
  destruct ((0 <? to_unsigned (refs g - 1)) || is_NULL m);
    repeat split; reflexivity.
Qed.

Ltac connect_cases pa g h g1 t1 Hi :=
  let c := fresh "c" in
  let Hc := fresh "Hc" in
  let Hrc := fresh "Hrc" in
  let Hf := fresh "Hf" in
  destruct (pa_context_new pa) as [c|] eqn:Hc;
  [ destruct (Z_lt_le_dec (pa_context_connect pa) 0) as [Hrc|Hrc];
    [ rewrite (vlc_pa_connect_refused pa g g1 h c t1 Hi Hc Hrc) in *
    | destruct (final_state_cases (pa_context_get_state pa)
                  (states_after_wait pa)) as [Hf|[Hf|[Hf|Hf]]];
      [ rewrite (vlc_pa_connect_ready pa g g1 h c t1 Hi Hc Hrc Hf) in *
      | rewrite (vlc_pa_connect_terminal pa g g1 h c t1 Hi Hc Hrc
                   (or_introl Hf)) in *
      | rewrite (vlc_pa_connect_terminal pa g g1 h c t1 Hi Hc Hrc
                   (or_intror Hf)) in *
      | rewrite (vlc_pa_connect_blocked pa g g1 h c t1 Hi Hc Hrc Hf) in * ] ]
  | rewrite (vlc_pa_connect_no_context pa g g1 h t1 Hi Hc) in * ].

Ltac connect_cases_of Hi :=
  match type of Hi with
  | vlc_pa_mainloop_init ?pa ?g = (Ret (Some ?h), ?g1, ?t1) =>
      connect_cases pa g h g1 t1 Hi
  end.

(** X12: whenever [vlc_pa_connect] returns, on success as on every
    failure path, the calling thread holds neither the loop's lock nor the
    static mutex. *)
Theorem connect_returns_with_locks_released (pa : libpulse) (g : globals)
    (x : ptr pa_context) :
  outcome_of (vlc_pa_connect pa g) = Ret x ->
  loop_lock_depth (events_of (vlc_pa_connect pa g)) = 0%nat
  /\ mutex_held (events_of (vlc_pa_connect pa g)) = false.
Proof.
  destruct (vlc_pa_mainloop_init pa g) as [[o g1] t1] eqn:Hi.
  destruct o as [[h|]| |].
  - destruct (init_return_events pa g g1 (Some h) t1 Hi) as [Hm Hd].
    pose proof (polling_events (Some h)) as Hp.
    connect_cases pa g h g1 t1 Hi;
      cbn [outcome_of events_of fst snd]; intros Ho;
      try discriminate Ho;
      try (destruct (fail_return_events _ _ _ Ho) as [_ [Hl Hx]]);
      rewrite loop_lock_depth_app, mutex_held_app, Hm, Hd;
      unfold connect_setup, connect_failure_events;
      cbn [app fold_left loop_lock_step mutex_step];
      rewrite ?fold_left_app, ?(fold_loop_polling _ (Hp _ _ _)),
        ?(fold_mutex_polling _ (Hp _ _ _));
      cbn [app fold_left loop_lock_step mutex_step];
      rewrite ?Hl, ?Hx; split; reflexivity.
  - rewrite (vlc_pa_connect_no_loop pa g g1 t1 Hi).
    cbn [outcome_of events_of fst snd]. intros _.
    destruct (init_return_events pa g g1 NULL t1 Hi) as [Hm Hd]. auto.
  - unfold vlc_pa_connect. rewrite (bind_abort_step _ _ _ _ _ Hi).
    discriminate.
  - unfold vlc_pa_connect. rewrite (bind_block_step _ _ _ _ _ Hi).
    discriminate.
Qed.

Lemma connect_returns_with_locks_released_witness :
  loop_lock_depth (events_of (vlc_pa_connect pa_accepts initial)) = 0%nat
  /\ mutex_held (events_of (vlc_pa_connect pa_refuses initial)) = false.
Proof.
  split.
  - apply (connect_returns_with_locks_released pa_accepts initial
             (Some 2%nat)).
    reflexivity.
  - apply (connect_returns_with_locks_released pa_refuses initial NULL).
    reflexivity.
Defined.

Lemma fail_after_counted (h : pa_threaded_mainloop) :
  vlc_pa_connect_fail (Some h) (mkGlobals (Some h) 1)
  = (Ret NULL, mkGlobals (Some h) 0,
     [Ev_mainloop_unlock (Some h);
      Ev_vlc_mutex_lock; Ev_refs_decr 0; Ev_vlc_mutex_unlock;
      Ev_mainloop_stop (Some h); Ev_mainloop_free (Some h)]).
Proof.
  rewrite vlc_pa_connect_fail_spec.
  rewrite deinit_last_holder; cbn [refs vlc_pa_mainloop];
    [reflexivity | lia | apply ptr_eqb_eq; reflexivity
    | vm_compute; discriminate].
Qed.

Lemma fail_uncounted (m : ptr pa_threaded_mainloop) (g : globals) :
  refs g = 0 ->
  vlc_pa_connect_fail m g
  = (Abort, g, [Ev_mainloop_unlock m; Ev_vlc_mutex_lock]).
Proof.
  intros Hr. rewrite vlc_pa_connect_fail_spec.
  rewrite deinit_assert_refs by lia. reflexivity.
Qed.

(** X13: from a state without holder, a call of [vlc_pa_connect] that
    returns NULL leaves nothing behind: the count is 0 again, every thread
    it started is stopped, every loop object it created is freed, and a
    context it created is unreferenced. *)
Theorem connect_failure_leaves_nothing (pa : libpulse) (g : globals) :
  refs g = 0 ->
  outcome_of (vlc_pa_connect pa g) = Ret NULL ->
  refs (globals_of (vlc_pa_connect pa g)) = 0
  /\ count is_started (events_of (vlc_pa_connect pa g))
     = count is_stop_event (events_of (vlc_pa_connect pa g))
  /\ count is_created (events_of (vlc_pa_connect pa g))
     = count is_free_event (events_of (vlc_pa_connect pa g))
  /\ count is_context_created (events_of (vlc_pa_connect pa g))
     = count is_context_unref (events_of (vlc_pa_connect pa g)).
Proof.
  intros Hz.
  pose proof (init_cases pa g) as Hb.
  destruct (vlc_pa_mainloop_init pa g) as [[o g1] t1] eqn:Hi.
  inversion Hb as [Hr Hn Heq|h Hr Hn Hs Heq|h Hr Hn Hs Heq|Hr Hm Heq
                  |h Hr Hm Hp Heq|Hr Hm Hp Heq]; subst o g1 t1;
    try congruence.
  - rewrite (vlc_pa_connect_no_loop pa g _ _ Hi).
    cbn [outcome_of globals_of events_of fst snd]. intros _.
    repeat split; auto.
  - connect_cases_of Hi;
      rewrite ?(fail_uncounted (Some h) g Hz);
      cbn [outcome_of fst]; intros Ho; discriminate Ho.
  - pose proof (polling_events (Some h)) as Hp.
    apply Z.leb_le in Hs.
    connect_cases_of Hi;
      rewrite ?fail_after_counted;
      cbn [outcome_of globals_of events_of fst snd refs]; intros Ho;
      try discriminate Ho;
      (split; [reflexivity|]);
      rewrite !count_app,
        ?(count_polling is_started _
            ltac:(intros [] ?; (discriminate || reflexivity)) (Hp _ _ _)),
        ?(count_polling is_stop_event _
            ltac:(intros [] ?; (discriminate || reflexivity)) (Hp _ _ _)),
        ?(count_polling is_created _
            ltac:(intros [] ?; (discriminate || reflexivity)) (Hp _ _ _)),
        ?(count_polling is_free_event _
            ltac:(intros [] ?; (discriminate || reflexivity)) (Hp _ _ _)),
        ?(count_polling is_context_created _
            ltac:(intros [] ?; (discriminate || reflexivity)) (Hp _ _ _)),
        ?(count_polling is_context_unref _
            ltac:(intros [] ?; (discriminate || reflexivity)) (Hp _ _ _));
      unfold count, connect_setup, connect_failure_events;
      cbn [filter is_started is_stop_event is_created is_free_event
             is_context_created is_context_unref];
      rewrite ?Hs; repeat split; reflexivity.
Qed.

Lemma connect_failure_leaves_nothing_witness :
  refs (globals_of (vlc_pa_connect pa_refuses initial)) = 0
  /\ count is_started (events_of (vlc_pa_connect pa_refuses initial))
     = count is_stop_event (events_of (vlc_pa_connect pa_refuses initial)).
Proof.
  destruct (connect_failure_leaves_nothing pa_refuses initial)
    as [H1 [H2 _]].
  - reflexivity.
  - reflexivity.
  - split; [exact H1 | exact H2].
Defined.

(** X14: when [pa_context_new] returns NULL, [vlc_pa_connect] goes to
    [fail] at once: it logs nothing and unreferences nothing, unlocks the
    loop, gives the reference back, which stops and frees the loop it had
    just started, and returns NULL. *)
Theorem connect_context_creation_failure (pa : libpulse) (g : globals)
    (h : pa_threaded_mainloop) :
  refs g = 0 ->
  pa_threaded_mainloop_new pa = Some h ->
  0 <= pa_threaded_mainloop_start pa ->
  pa_context_new pa = NULL ->
  vlc_pa_connect pa g
  = (Ret NULL, mkGlobals (Some h) 0,
     [Ev_vlc_mutex_lock; Ev_mainloop_new (Some h);
      Ev_mainloop_start (Some h) (pa_threaded_mainloop_start pa);
      Ev_refs_incr 1; Ev_vlc_mutex_unlock;
      Ev_var_InheritString "user-agent" (var_InheritString pa);
      Ev_mainloop_lock (Some h); Ev_mainloop_get_api (Some h);
      Ev_context_new (Some h) (var_InheritString pa) NULL;
      Ev_free (var_InheritString pa);
      Ev_mainloop_unlock (Some h);
      Ev_vlc_mutex_lock; Ev_refs_decr 0; Ev_vlc_mutex_unlock;
      Ev_mainloop_stop (Some h); Ev_mainloop_free (Some h)]).
Proof.
  intros Hr Hn Hs Hc.
  rewrite (vlc_pa_connect_no_context pa g _ h _
             (init_no_holder_starts pa g h Hr Hn Hs) Hc).
  rewrite fail_after_counted. reflexivity.
Qed.

Lemma connect_context_creation_failure_witness :
  outcome_of (vlc_pa_connect pa_no_context initial) = Ret NULL
  /\ count is_msg_Err (events_of (vlc_pa_connect pa_no_context initial))
     = 0%nat.
Proof.
  rewrite (connect_context_creation_failure pa_no_context initial 1%nat);
    [split; reflexivity | reflexivity | reflexivity
    | vm_compute; discriminate | reflexivity].
Defined.

(** X15: when [pa_context_connect] fails, [vlc_pa_connect] never reads the
    state and never waits: it logs the failure with the text of the
    context's error, unreferences the context, unlocks the loop, gives the
    reference back and returns NULL. *)
Theorem connect_request_rejected (pa : libpulse) (g : globals)
    (h : pa_threaded_mainloop) (c : pa_context) :
  refs g = 0 ->
  pa_threaded_mainloop_new pa = Some h ->
  0 <= pa_threaded_mainloop_start pa ->
  pa_context_new pa = Some c ->
  pa_context_connect pa < 0 ->
  vlc_pa_connect pa g
  = (Ret NULL, mkGlobals (Some h) 0,
     [Ev_vlc_mutex_lock; Ev_mainloop_new (Some h);
      Ev_mainloop_start (Some h) (pa_threaded_mainloop_start pa);
      Ev_refs_incr 1; Ev_vlc_mutex_unlock;
      Ev_var_InheritString "user-agent" (var_InheritString pa);
      Ev_mainloop_lock (Some h); Ev_mainloop_get_api (Some h);
      Ev_context_new (Some h) (var_InheritString pa) (Some c);
      Ev_free (var_InheritString pa);
      Ev_context_set_state_callback (Some c) (Some h);
      Ev_context_connect (Some c) (pa_context_connect pa);
      Ev_msg_Err ("PulseAudio server connection failure: "
                  ++ pa_strerror pa (pa_context_errno pa));
      Ev_context_unref (Some c);
      Ev_mainloop_unlock (Some h);
      Ev_vlc_mutex_lock; Ev_refs_decr 0; Ev_vlc_mutex_unlock;
      Ev_mainloop_stop (Some h); Ev_mainloop_free (Some h)]).
Proof.
  intros Hr Hn Hs Hc Hrc.
  rewrite (vlc_pa_connect_refused pa g _ h c _
             (init_no_holder_starts pa g h Hr Hn Hs) Hc Hrc).
  rewrite fail_after_counted. reflexivity.
Qed.

Lemma connect_request_rejected_witness :
  outcome_of (vlc_pa_connect pa_rejects initial) = Ret NULL
  /\ count is_get_state (events_of (vlc_pa_connect pa_rejects initial))
     = 0%nat
  /\ In (Ev_msg_Err "PulseAudio server connection failure: Connection refused")
        (events_of (vlc_pa_connect pa_rejects initial)).
Proof.
  rewrite (connect_request_rejected pa_rejects initial 1%nat 2%nat);
    [ split; [reflexivity|]; split; [reflexivity|];
      cbn; do 12 right; left; reflexivity
    | reflexivity | reflexivity | vm_compute; discriminate | reflexivity
    | reflexivity ].
Defined.

Lemma polling_ends_waiting (m : ptr pa_threaded_mainloop)
    (c : ptr pa_context) (later : list pa_context_state_t) :
  forall s, final_state s later = None ->
    exists t, polling m c s later = t ++ [Ev_mainloop_wait m].
Proof.
  induction later as [|s' later IH]; intros s H.
  - destruct s; cbn in H; try discriminate;
      eexists [_]; reflexivity.
  - destruct s; cbn [final_state] in H; try discriminate;
      destruct (IH s' H) as [t Ht]; cbn [polling]; rewrite Ht;
      eexists (_ :: _ :: t); reflexivity.
Qed.

(** X16: when the server never reaches Ready, Failed or Terminated,
    [vlc_pa_connect] never returns: it is left in
    [pa_threaded_mainloop_wait], inside the region guarded by the loop's
    lock, with its reference counted, the thread running and the context
    neither unreferenced nor returned. *)
Theorem connect_blocks_holding_reference (pa : libpulse) (g : globals)
    (h : pa_threaded_mainloop) (c : pa_context) :
  refs g = 0 ->
  pa_threaded_mainloop_new pa = Some h ->
  0 <= pa_threaded_mainloop_start pa ->
  pa_context_new pa = Some c ->
  0 <= pa_context_connect pa ->
  forallb is_transient (pa_context_get_state pa :: states_after_wait pa)
  = true ->
  outcome_of (vlc_pa_connect pa g) = Block
  /\ globals_of (vlc_pa_connect pa g) = mkGlobals (Some h) 1
  /\ loop_lock_depth (events_of (vlc_pa_connect pa g)) = 1%nat
  /\ count is_stop_or_free (events_of (vlc_pa_connect pa g)) = 0%nat
  /\ count is_context_unref (events_of (vlc_pa_connect pa g)) = 0%nat
  /\ exists t, events_of (vlc_pa_connect pa g)
               = t ++ [Ev_mainloop_wait (Some h)].
Proof.
  intros Hr Hn Hs Hc Hrc Ht.
  apply final_state_none_iff in Ht.
  rewrite (vlc_pa_connect_blocked pa g _ h c _
             (init_no_holder_starts pa g h Hr Hn Hs) Hc Hrc Ht).
  cbn [outcome_of globals_of events_of fst snd].
  pose proof (polling_events (Some h) (Some c) (states_after_wait pa)
                (pa_context_get_state pa)) as Hp.
  split; [reflexivity|]. split; [reflexivity|].
  split; [|split; [|split]].
  - unfold connect_setup. cbn [app].
    unfold loop_lock_depth. cbn [fold_left loop_lock_step].
    apply fold_loop_polling. exact Hp.
  - rewrite (count_app _ [_; _; _; _; _]), count_app.
    rewrite (count_polling is_stop_or_free _
               ltac:(intros [] ?; (discriminate || reflexivity)) Hp).
    reflexivity.
  - rewrite (count_app _ [_; _; _; _; _]), count_app.
    rewrite (count_polling is_context_unref _
               ltac:(intros [] ?; (discriminate || reflexivity)) Hp).
    reflexivity.
  - destruct (polling_ends_waiting (Some h) (Some c) _ _ Ht) as [t Hw].
    rewrite Hw. eexists. rewrite !app_assoc. reflexivity.
Qed.

Lemma connect_blocks_holding_reference_witness :
  outcome_of (vlc_pa_connect pa_silent initial) = Block
  /\ globals_of (vlc_pa_connect pa_silent initial)
     = mkGlobals (Some 1%nat) 1.
Proof.
  destruct (connect_blocks_holding_reference pa_silent initial 1%nat 2%nat)
    as [H1 [H2 _]];
    [ reflexivity | reflexivity | vm_compute; discriminate | reflexivity
    | vm_compute; discriminate | reflexivity | ].
  split; [exact H1 | exact H2].
Defined.

(** *** An open connection *)

(** A connection opened from a state without holder, the thread having
    started. *)
Lemma connect_counted_success (pa : libpulse) (g g1 : globals)
    (c : pa_context) (t : list event) :
  refs g = 0 ->
  0 <= pa_threaded_mainloop_start pa ->
  vlc_pa_connect pa g = (Ret (Some c), g1, t) ->
  exists h,
    pa_threaded_mainloop_new pa = Some h
    /\ pa_context_new pa = Some c
    /\ g1 = mkGlobals (Some h) 1
    /\ t = [Ev_vlc_mutex_lock; Ev_mainloop_new (Some h);
            Ev_mainloop_start (Some h) (pa_threaded_mainloop_start pa);
            Ev_refs_incr 1; Ev_vlc_mutex_unlock]
           ++ connect_setup pa h c
           ++ polling (Some h) (Some c) (pa_context_get_state pa)
                (states_after_wait pa)
           ++ [Ev_mainloop_unlock (Some h)].
Proof.
  intros Hz Hs0 H.
  pose proof (init_cases pa g) as Hb.
  destruct (vlc_pa_mainloop_init pa g) as [[o g0] t1] eqn:Hi.
  inversion Hb as [Hr Hn Heq|h Hr Hn Hs Heq|h Hr Hn Hs Heq|Hr Hm Heq
                  |h Hr Hm Hp Heq|Hr Hm Hp Heq]; subst o g0 t1;
    try congruence; try lia.
  - rewrite (vlc_pa_connect_no_loop pa g _ _ Hi) in H. discriminate.
  - connect_cases_of Hi; rewrite ?fail_after_counted in H;
      cbn [outcome_of globals_of events_of fst snd] in H;
      try discriminate H.
    inversion H; subst. exists h. auto.
Qed.

(** X17: a connection opened by [vlc_pa_connect] from a state without
    holder and closed by [vlc_pa_disconnect] leaves the count at 0 again:
    the context is unreferenced under the loop's lock, and the one thread
    that the connection started is stopped and its loop freed. *)
Theorem connect_disconnect_round_trip (pa : libpulse) (g g1 : globals)
    (c : pa_context) (t : list event) :
  refs g = 0 ->
  0 <= pa_threaded_mainloop_start pa ->
  vlc_pa_connect pa g = (Ret (Some c), g1, t) ->
  exists h,
    pa_threaded_mainloop_new pa = Some h
    /\ refs g1 = 1
    /\ count is_started t = 1%nat
    /\ vlc_pa_disconnect (Some c) g1
       = (Ret tt, mkGlobals (Some h) 0,
          [Ev_mainloop_lock (Some h); Ev_context_unref (Some c);
           Ev_mainloop_unlock (Some h);
           Ev_vlc_mutex_lock; Ev_refs_decr 0; Ev_vlc_mutex_unlock;
           Ev_mainloop_stop (Some h); Ev_mainloop_free (Some h)]).
Proof.
  intros Hz Hs H.
  destruct (connect_counted_success pa g g1 c t Hz Hs H)
    as [h [Hn [Hc [-> ->]]]].
  exists h. split; [exact Hn|]. split; [reflexivity|]. split.
  - pose proof (polling_events (Some h) (Some c) (states_after_wait pa)
                  (pa_context_get_state pa)) as Hp.
    rewrite !count_app.
    rewrite (count_polling is_started _
               ltac:(intros [] ?; (discriminate || reflexivity)) Hp).
    unfold count, connect_setup. cbn [filter is_started].
    apply Z.leb_le in Hs. rewrite Hs. reflexivity.
  - rewrite vlc_pa_disconnect_unfold. cbn [vlc_pa_mainloop].
    rewrite deinit_last_holder; cbn [refs vlc_pa_mainloop];
      [reflexivity | lia | apply ptr_eqb_eq; reflexivity
      | vm_compute; discriminate].
Qed.

Lemma connect_disconnect_round_trip_witness :
  exists h,
    pa_threaded_mainloop_new pa_accepts = Some h
    /\ refs (mkGlobals (Some 1%nat) 1) = 1
    /\ count is_started (events_of (vlc_pa_connect pa_accepts initial))
       = 1%nat
    /\ vlc_pa_disconnect (Some 2%nat) (mkGlobals (Some 1%nat) 1)
       = (Ret tt, mkGlobals (Some h) 0,
          [Ev_mainloop_lock (Some h); Ev_context_unref (Some 2%nat);
           Ev_mainloop_unlock (Some h);
           Ev_vlc_mutex_lock; Ev_refs_decr 0; Ev_vlc_mutex_unlock;
           Ev_mainloop_stop (Some h); Ev_mainloop_free (Some h)]).
Proof.
  apply (connect_disconnect_round_trip pa_accepts initial
           (mkGlobals (Some 1%nat) 1) 2%nat
           (events_of (vlc_pa_connect pa_accepts initial)));
    [reflexivity | vm_compute; discriminate | reflexivity].
Defined.

(** X18: while such a connection is open, every further call of
    [vlc_pa_connect], whatever the libraries would answer, returns NULL:
    it only locks and unlocks the static mutex, creates no context and
    leaves the count and the loop of the open connection alone. *)
Theorem connect_while_connected (pa pa' : libpulse) (g g1 : globals)
    (c : pa_context) (t : list event) :
  refs g = 0 ->
  0 <= pa_threaded_mainloop_start pa ->
  vlc_pa_connect pa g = (Ret (Some c), g1, t) ->
  vlc_pa_connect pa' g1
  = (Ret NULL, g1, [Ev_vlc_mutex_lock; Ev_vlc_mutex_unlock]).
Proof.
  intros Hz Hs H.
  destruct (connect_counted_success pa g g1 c t Hz Hs H)
    as [h [Hn [Hc [-> ->]]]].
  apply vlc_pa_connect_no_loop.
  apply init_holders_below_max; cbn [refs]; [lia | reflexivity].
Qed.

Lemma connect_while_connected_witness :
  vlc_pa_connect pa_accepts (mkGlobals (Some 1%nat) 1)
  = (Ret NULL, mkGlobals (Some 1%nat) 1,
     [Ev_vlc_mutex_lock; Ev_vlc_mutex_unlock]).
Proof.
  apply (connect_while_connected pa_accepts pa_accepts initial
           (mkGlobals (Some 1%nat) 1) 2%nat
           (events_of (vlc_pa_connect pa_accepts initial)));
    [reflexivity | vm_compute; discriminate | reflexivity].
Defined.

(** X19: closing such a connection twice fails in the second call: after
    the first [vlc_pa_disconnect] the count is 0 and [vlc_pa_mainloop]
    still points to the freed loop, so the second call locks that loop,
    unreferences the context again, unlocks, and then fails
    [assert (refs > 0)] with the static mutex locked. *)
Theorem disconnect_twice (pa : libpulse) (g g1 : globals)
    (c : pa_context) (t : list event) :
  refs g = 0 ->
  0 <= pa_threaded_mainloop_start pa ->
  vlc_pa_connect pa g = (Ret (Some c), g1, t) ->
  exists h,
    pa_threaded_mainloop_new pa = Some h
    /\ (vlc_pa_disconnect (Some c) ;; vlc_pa_disconnect (Some c)) g1
       = (Abort, mkGlobals (Some h) 0,
          [Ev_mainloop_lock (Some h); Ev_context_unref (Some c);
           Ev_mainloop_unlock (Some h);
           Ev_vlc_mutex_lock; Ev_refs_decr 0; Ev_vlc_mutex_unlock;
           Ev_mainloop_stop (Some h); Ev_mainloop_free (Some h);
           Ev_mainloop_lock (Some h); Ev_context_unref (Some c);
           Ev_mainloop_unlock (Some h); Ev_vlc_mutex_lock]).
Proof.
  intros Hz Hs H.
  destruct (connect_counted_success pa g g1 c t Hz Hs H)
    as [h [Hn [Hc [-> ->]]]].
  exists h. split; [exact Hn|].
  assert (H1 : vlc_pa_disconnect (Some c) (mkGlobals (Some h) 1)
               = (Ret tt, mkGlobals (Some h) 0,
                  [Ev_mainloop_lock (Some h); Ev_context_unref (Some c);
                   Ev_mainloop_unlock (Some h);
                   Ev_vlc_mutex_lock; Ev_refs_decr 0; Ev_vlc_mutex_unlock;
                   Ev_mainloop_stop (Some h); Ev_mainloop_free (Some h)])).
  { rewrite vlc_pa_disconnect_unfold. cbn [vlc_pa_mainloop].
    rewrite deinit_last_holder; cbn [refs vlc_pa_mainloop];
      [reflexivity | lia | apply ptr_eqb_eq; reflexivity
      | vm_compute; discriminate]. }
  rewrite (bind_ret_step _ _ _ _ _ _ H1).
  rewrite vlc_pa_disconnect_unfold. cbn [vlc_pa_mainloop].
  rewrite deinit_assert_refs by (cbn [refs]; lia).
  reflexivity.
Qed.

Lemma disconnect_twice_witness :
  exists h,
    pa_threaded_mainloop_new pa_accepts = Some h
    /\ (vlc_pa_disconnect (Some 2%nat) ;; vlc_pa_disconnect (Some 2%nat))
         (mkGlobals (Some 1%nat) 1)
       = (Abort, mkGlobals (Some h) 0,
          [Ev_mainloop_lock (Some h); Ev_context_unref (Some 2%nat);
           Ev_mainloop_unlock (Some h);
           Ev_vlc_mutex_lock; Ev_refs_decr 0; Ev_vlc_mutex_unlock;
           Ev_mainloop_stop (Some h); Ev_mainloop_free (Some h);
           Ev_mainloop_lock (Some h); Ev_context_unref (Some 2%nat);
           Ev_mainloop_unlock (Some h); Ev_vlc_mutex_lock]).
Proof.
  apply (disconnect_twice pa_accepts initial (mkGlobals (Some 1%nat) 1)
           2%nat (events_of (vlc_pa_connect pa_accepts initial)));
    [reflexivity | vm_compute; discriminate | reflexivity].
Defined.

(** X20: while such a connection is open, [vlc_pa_lock], [vlc_pa_unlock],
    [vlc_pa_wait] and [vlc_pa_signal] act on the loop the connection's
    context was created on, pass the argument of [vlc_pa_signal] on, and
    change no global. *)
Theorem monitor_calls_use_connection_loop (pa : libpulse) (g g1 : globals)
    (c : pa_context) (t : list event) (do_wait : Z) :
  refs g = 0 ->
  0 <= pa_threaded_mainloop_start pa ->
  vlc_pa_connect pa g = (Ret (Some c), g1, t) ->
  exists h,
    In (Ev_context_new (Some h) (var_InheritString pa) (Some c)) t
    /\ vlc_pa_lock g1 = (Ret tt, g1, [Ev_mainloop_lock (Some h)])
    /\ vlc_pa_unlock g1 = (Ret tt, g1, [Ev_mainloop_unlock (Some h)])
    /\ vlc_pa_wait g1 = (Ret tt, g1, [Ev_mainloop_wait (Some h)])
    /\ vlc_pa_signal do_wait g1
       = (Ret tt, g1, [Ev_mainloop_signal (Some h) do_wait]).
Proof.
  intros Hz Hs H.
  destruct (connect_counted_success pa g g1 c t Hz Hs H)
    as [h [Hn [Hc [-> ->]]]].
  exists h. split.
  - apply in_or_app. right. apply in_or_app. left.
    unfold connect_setup. cbn. do 3 right. left. reflexivity.
  - repeat split; reflexivity.
Qed.

Lemma monitor_calls_use_connection_loop_witness :
  exists h,
    In (Ev_context_new (Some h) (var_InheritString pa_accepts) (Some 2%nat))
       (events_of (vlc_pa_connect pa_accepts initial))
    /\ vlc_pa_lock (mkGlobals (Some 1%nat) 1)
       = (Ret tt, mkGlobals (Some 1%nat) 1, [Ev_mainloop_lock (Some h)])
    /\ vlc_pa_unlock (mkGlobals (Some 1%nat) 1)
       = (Ret tt, mkGlobals (Some 1%nat) 1, [Ev_mainloop_unlock (Some h)])
    /\ vlc_pa_wait (mkGlobals (Some 1%nat) 1)
       = (Ret tt, mkGlobals (Some 1%nat) 1, [Ev_mainloop_wait (Some h)])
    /\ vlc_pa_signal 0 (mkGlobals (Some 1%nat) 1)
       = (Ret tt, mkGlobals (Some 1%nat) 1,
          [Ev_mainloop_signal (Some h) 0]).
Proof.
  apply (monitor_calls_use_connection_loop pa_accepts initial
           (mkGlobals (Some 1%nat) 1) 2%nat
           (events_of (vlc_pa_connect pa_accepts initial)) 0);
    [reflexivity | vm_compute; discriminate | reflexivity].
Defined.

(** X21: when the loop is created but its thread cannot be started, and
    the context is created, connected and becomes Ready all the same,
    [vlc_pa_connect] returns that context: the loop was freed before it is
    locked and the context created on it, no reference is counted and
    [vlc_pa_mainloop] is not set, so closing the connection fails
    [assert (refs > 0)]. *)
Theorem connect_after_start_failure (pa : libpulse) (g : globals)
    (h : pa_threaded_mainloop) (c : pa_context) :
  refs g = 0 ->
  pa_threaded_mainloop_new pa = Some h ->
  pa_threaded_mainloop_start pa < 0 ->
  pa_context_new pa = Some c ->
  0 <= pa_context_connect pa ->
  final_state (pa_context_get_state pa) (states_after_wait pa)
  = Some PA_CONTEXT_READY ->
  vlc_pa_connect pa g
  = (Ret (Some c), g,
     [Ev_vlc_mutex_lock; Ev_mainloop_new (Some h);
      Ev_mainloop_start (Some h) (pa_threaded_mainloop_start pa);
      Ev_mainloop_free (Some h); Ev_vlc_mutex_unlock;
      Ev_var_InheritString "user-agent" (var_InheritString pa);
      Ev_mainloop_lock (Some h); Ev_mainloop_get_api (Some h);
      Ev_context_new (Some h) (var_InheritString pa) (Some c);
      Ev_free (var_InheritString pa);
      Ev_context_set_state_callback (Some c) (Some h);
      Ev_context_connect (Some c) (pa_context_connect pa)]
     ++ polling (Some h) (Some c) (pa_context_get_state pa)
          (states_after_wait pa)
     ++ [Ev_mainloop_unlock (Some h)])
  /\ outcome_of (vlc_pa_disconnect (Some c) g) = Abort.
Proof.
  intros Hr Hn Hs Hc Hrc Hf. split.
  - rewrite (vlc_pa_connect_ready pa g _ h c _
               (init_no_holder_start_fails pa g h Hr Hn Hs) Hc Hrc Hf).
    reflexivity.
  - rewrite vlc_pa_disconnect_unfold. cbn [outcome_of fst].
    rewrite deinit_assert_refs by lia. reflexivity.
Qed.

Lemma connect_after_start_failure_witness :
  outcome_of (vlc_pa_connect pa_no_thread initial) = Ret (Some 2%nat)
  /\ globals_of (vlc_pa_connect pa_no_thread initial) = initial
  /\ outcome_of (vlc_pa_disconnect (Some 2%nat) initial) = Abort.
Proof.
  destruct (connect_after_start_failure pa_no_thread initial 1%nat 2%nat)
    as [H1 H2];
    [ reflexivity | reflexivity | reflexivity | reflexivity
    | vm_compute; discriminate | reflexivity | ].
  rewrite H1. split; [reflexivity|]. split; [reflexivity | exact H2].
Defined.

(** ** The lifetime of the loop thread *)




(** ** Connection after a thread that could not be started *)



(** X23: with no holder, a loop that is created and started, a context
    that is created, a connection request that is accepted and a server
    that reaches Ready, [vlc_pa_connect] returns the context and leaves
    the count at 1 and [vlc_pa_mainloop] at the loop: it has acquired the
    loop, then, inside the lock and unlock of the loop, created the context
    with the inherited user-agent string, set the state callback, asked
    for the connection and polled up to the read of Ready. *)
Theorem connect_ready_counted (pa : libpulse) (g : globals)
    (h : pa_threaded_mainloop) (c : pa_context) :
  refs g = 0 ->
  pa_threaded_mainloop_new pa = Some h ->
  0 <= pa_threaded_mainloop_start pa ->
  pa_context_new pa = Some c ->
  0 <= pa_context_connect pa ->
  final_state (pa_context_get_state pa) (states_after_wait pa)
  = Some PA_CONTEXT_READY ->
  vlc_pa_connect pa g
  = (Ret (Some c), mkGlobals (Some h) 1,
     [Ev_vlc_mutex_lock; Ev_mainloop_new (Some h);
      Ev_mainloop_start (Some h) (pa_threaded_mainloop_start pa);
      Ev_refs_incr 1; Ev_vlc_mutex_unlock;
      Ev_var_InheritString "user-agent" (var_InheritString pa);
      Ev_mainloop_lock (Some h); Ev_mainloop_get_api (Some h);
      Ev_context_new (Some h) (var_InheritString pa) (Some c);
      Ev_free (var_InheritString pa);
      Ev_context_set_state_callback (Some c) (Some h);
      Ev_context_connect (Some c) (pa_context_connect pa)]
     ++ polling (Some h) (Some c) (pa_context_get_state pa)
          (states_after_wait pa)
     ++ [Ev_mainloop_unlock (Some h)])
  /\ exists tp,
       polling (Some h) (Some c) (pa_context_get_state pa)
         (states_after_wait pa)
       = tp ++ [Ev_context_get_state (Some c) PA_CONTEXT_READY]
       /\ Forall (fun e => is_polling_event e = true) tp.
Proof.
  intros Hr Hn Hs Hc Hrc Hf. split.
  - rewrite (vlc_pa_connect_ready pa g _ h c _
               (init_no_holder_starts pa g h Hr Hn Hs) Hc Hrc Hf).
    reflexivity.
  - destruct (polling_last (Some h) (Some c) _ _ _ Hf) as [tp Htp].
    exists tp. split; [exact Htp|].
    pose proof (polling_events (Some h) (Some c) (states_after_wait pa)
                  (pa_context_get_state pa)) as Hp.
    rewrite Htp in Hp. apply Forall_app in Hp. apply Hp.
Qed.

Lemma connect_ready_counted_witness :
  vlc_pa_connect pa_accepts initial
  = (Ret (Some 2%nat), mkGlobals (Some 1%nat) 1,
     [Ev_vlc_mutex_lock; Ev_mainloop_new (Some 1%nat);
      Ev_mainloop_start (Some 1%nat) 0; Ev_refs_incr 1; Ev_vlc_mutex_unlock;
      Ev_var_InheritString "user-agent" (Some "VLC media player"%string);
      Ev_mainloop_lock (Some 1%nat); Ev_mainloop_get_api (Some 1%nat);
      Ev_context_new (Some 1%nat) (Some "VLC media player"%string)
        (Some 2%nat);
      Ev_free (Some "VLC media player"%string);
      Ev_context_set_state_callback (Some 2%nat) (Some 1%nat);
      Ev_context_connect (Some 2%nat) 0;
      Ev_context_get_state (Some 2%nat) PA_CONTEXT_CONNECTING;
      Ev_mainloop_wait (Some 1%nat);
      Ev_context_get_state (Some 2%nat) PA_CONTEXT_AUTHORIZING;
      Ev_mainloop_wait (Some 1%nat);
      Ev_context_get_state (Some 2%nat) PA_CONTEXT_SETTING_NAME;
      Ev_mainloop_wait (Some 1%nat);
      Ev_context_get_state (Some 2%nat) PA_CONTEXT_READY;
      Ev_mainloop_unlock (Some 1%nat)]).
Proof.
  destruct (connect_ready_counted pa_accepts initial 1%nat 2%nat)
    as [H _];
    [ reflexivity | reflexivity | vm_compute; discriminate | reflexivity
    | vm_compute; discriminate | reflexivity | ].
  rewrite H. reflexivity.
Defined.
